(** * corporate/views.py: the billing views of the realm

    A shallow embedding of [corporate/views.py] (seat-count unsigning,
    upgrade-parameter validation, the upgrade / downgrade / payment-source
    views, the billing home page) and the properties of its description.

    Python values are embedded as follows: [int] is [Z], [str] is [string],
    [Optional[T]] is [option T], a raised exception is the [Raise] branch of
    [result], and a view that touches the database, the log or the payment
    processor is a function of the world, [M]. *)

From Stdlib Require Import ZArith List String Ascii Bool Lia QArith.
From Stdlib Require Import Decimal DecimalFacts DecimalZ DecimalString.
Import ListNotations.

#[local] Open Scope string_scope.
#[local] Open Scope Z_scope.

(** ** Exceptions and results *)

(** Modelled from the spec: [BillingError] is declared in
    corporate/lib/stripe.py, outside this file.  The views read its two
    attributes, [e.message] and [e.description]; its constructor takes the
    description first and the message second (line 53). *)
Record BillingError := mkBillingError {
  description : string;
  message : string
}.

(** The exceptions a view body can raise, all of them subclasses of
    [Exception] (interpreter signals such as KeyboardInterrupt are not
    failures of a view and are not modelled). *)
Inductive exn :=
| BillingErr (e : BillingError)
| BadSignature                           (* django.core.signing.BadSignature *)
| ValueError (literal : string)          (* int() on a malformed literal *)
| KeyError (key : string)                (* dict[key] on a missing key *)
| OtherException (cls detail : string).  (* any other subclass *)

Inductive result (A : Type) :=
| Ok (a : A)
| Raise (e : exn).
Arguments Ok {A} a.
Arguments Raise {A} e.

(** ** Strings *)

Module Str.

Definition colon : ascii := ":"%char.

Fixpoint all (p : ascii -> bool) (s : string) : bool :=
  match s with
  | EmptyString => true
  | String c r => p c && all p r
  end.

(** [sep not in s] *)
Definition sep_free (s : string) : bool :=
  all (fun c => negb (Ascii.eqb c colon)) s.

(** [s.rsplit(':', 1)], [None] when [':' not in s]. *)
Fixpoint rsplit (s : string) : option (string * string) :=
  match s with
  | EmptyString => None
  | String c r =>
      match rsplit r with
      | Some (v, sig) => Some (String c v, sig)
      | None => if Ascii.eqb c colon then Some (EmptyString, r) else None
      end
  end.

(** The whitespace of the ASCII range, as [str.isspace] has it: tab to
    carriage return, the four separators 28-31, and the space. *)
Definition is_space (c : ascii) : bool :=
  let n := nat_of_ascii c in
  ((9 <=? n) && (n <=? 13) || (28 <=? n) && (n <=? 32))%nat.

Fixpoint lstrip (s : string) : string :=
  match s with
  | EmptyString => EmptyString
  | String c r => if is_space c then lstrip r else s
  end.

Fixpoint rstrip (s : string) : string :=
  match s with
  | EmptyString => EmptyString
  | String c r =>
      match rstrip r with
      | EmptyString => if is_space c then EmptyString else String c EmptyString
      | r' => String c r'
      end
  end.

Definition strip (s : string) : string := rstrip (lstrip s).

(** [x in l] for a list of strings. *)
Definition mem (x : string) (l : list string) : bool :=
  existsb (String.eqb x) l.

(** [x in l] where [x] may be [None] and [l] holds strings only. *)
Definition omem (x : option string) (l : list string) : bool :=
  match x with
  | Some s => mem s l
  | None => false
  end.

Definition oeqb (x : option string) (s : string) : bool :=
  match x with
  | Some t => String.eqb t s
  | None => false
  end.

(** The characters [str] writes for an integer. *)
Definition is_digit (c : ascii) : bool :=
  let n := nat_of_ascii c in ((48 <=? n) && (n <=? 57))%nat.

Definition is_minus_or_digit (c : ascii) : bool :=
  Ascii.eqb c "-" || is_digit c.

End Str.

(** ** [str] and [int] on integers *)

(** [str(n)] for an [int]. *)
Definition py_str (n : Z) : string :=
  NilZero.string_of_int (Z.to_int n).

(** A run of digits in which single underscores may stand between two
    digits, with the underscores dropped; [after_digit] says whether the
    previous character was a digit. *)
Fixpoint group_digits (after_digit : bool) (s : string) : option string :=
  match s with
  | EmptyString => if after_digit then Some EmptyString else None
  | String c r =>
      if Str.is_digit c then option_map (String c) (group_digits true r)
      else if Ascii.eqb c "_" && after_digit then group_digits false r
      else None
  end.

Definition unsigned_literal (s : string) : option Decimal.uint :=
  match group_digits false s with
  | Some digits => NilZero.uint_of_string digits
  | None => None
  end.

(** The literal grammar of [int(s)] after stripping: an optional sign and a
    non-empty run of digits, with single underscores allowed between
    digits. *)
Definition int_literal (t : string) : option Decimal.int :=
  match t with
  | EmptyString => None
  | String c r =>
      if Ascii.eqb c "+" then option_map Pos (unsigned_literal r)
      else if Ascii.eqb c "-" then option_map Neg (unsigned_literal r)
      else option_map Pos (unsigned_literal t)
  end.

(** [int(s)] for a [str]: surrounding whitespace is dropped, the rest must
    be a literal, otherwise ValueError.  Strings are strings of ASCII
    characters here, so the decimal digits and the whitespace outside ASCII
    that [int] also takes do not arise. *)
Definition py_int (s : string) : result Z :=
  match int_literal (Str.strip s) with
  | Some d => Ok (Z.of_int d)
  | None => Raise (ValueError s)
  end.

(** [d[key]] on a dict literal given as its items in source order: a later
    item with the same key replaces an earlier one. *)
Fixpoint dict_get {V : Type} (d : list (string * V)) (key : string) : option V :=
  match d with
  | [] => None
  | (k, v) :: rest =>
      match dict_get rest key with
      | Some v' => Some v'
      | None => if String.eqb k key then Some v else None
      end
  end.

Definition dict_getitem {V : Type} (d : list (string * V)) (key : string) : result V :=
  match dict_get d key with
  | Some v => Ok v
  | None => Raise (KeyError key)
  end.

(** ** Records of the data model *)

(** [zerver.models.UserProfile], the attributes the views read. *)
Record UserProfile := {
  realm : Z;
  email : string;
  is_realm_admin : bool;
  is_billing_admin : bool
}.

(** [corporate.models.Customer], the attributes the views read. *)
Record Customer := {
  customer_realm : Z;
  stripe_customer_id : string;
  has_billing_relationship : bool;
  default_discount : option Q
}.

(** Modelled from the spec: [corporate.models.CustomerPlan] is declared
    outside this file; section 3 gives it a billing cadence and a license
    count, and it belongs to one Customer. *)
Record CustomerPlan := {
  plan_customer : string;
  billing_schedule : Z;
  plan_licenses : Z
}.

(** [corporate.models.Plan], the attributes the views read. *)
Record Plan := {
  stripe_plan_id : string;
  nickname : string
}.

(** The processor's objects, as the views read them. *)
Record StripeSource := {
  source_object : string;   (* stripe_source.object *)
  last4 : string;
  source_type : string      (* stripe_source.type *)
}.

Record Subscription := {
  billing : string;
  subscription_plan_id : string;   (* subscription.plan.id *)
  quantity : Z;
  current_period_end : Z;
  status : string
}.

Record StripeCustomer := {
  account_balance : Z;
  default_source : option StripeSource;
  stripe_email : string;
  subscriptions : list Subscription
}.

(** ** Responses *)

(** A template context value.  The formatting expressions of the views are
    kept symbolic: [VMoney c] is ['{:,.2f}'.format(c / 100.)], [VDate t] is
    the renewal date written from the timestamp [t], [VFloat q] is
    [float(q)], and [VJson] is the JSON text of a dict. *)
#[warnings="-register-all"]
Inductive value :=
| VStr (s : string)
| VInt (n : Z)
| VBool (b : bool)
| VFloat (q : Q)
| VMoney (cents : Z)
| VDate (timestamp : Z)
| VJson (items : list (string * value)).

Inductive url :=
| reverse (view : string).

Inductive HttpResponse :=
| json_success
| json_error (msg : string) (data : list (string * string))
| HttpResponseRedirect (target : url)
| render (template : string) (context : list (string * value)).

(** ** The world of a request *)

Inductive LogRecord :=
| LogException (format : string) (arg : exn).   (* logger.exception(format % (arg,)) *)

Record World := {
  customers : list Customer;            (* Customer.objects, by primary key *)
  customer_plans : list CustomerPlan;   (* CustomerPlan.objects *)
  plans : list Plan;                    (* Plan.objects *)
  billing_log : list LogRecord          (* what billing_logger has written *)
}.

(** A statement that may read and write the world and may raise. *)
Definition M (A : Type) : Type := World -> result A * World.

Definition ret {A} (a : A) : M A := fun w => (Ok a, w).

Definition raise {A} (e : exn) : M A := fun w => (Raise e, w).

Definition bind {A B} (c : M A) (k : A -> M B) : M B :=
  fun w =>
    match c w with
    | (Ok a, w') => k a w'
    | (Raise e, w') => (Raise e, w')
    end.

(** A pure call that may raise. *)
Definition lift {A} (r : result A) : M A := fun w => (r, w).

Notation "x <- c ;; k" := (bind c (fun x => k))
  (at level 61, c at next level, right associativity).
Notation "c ;;; k" := (bind c (fun _ => k))
  (at level 61, right associativity).

(** An [except] clause: [None] when the raised exception is not an instance
    of the clause's class. *)
Definition clause (B : Type) : Type := exn -> option (M B).

Definition except_BillingError {B} (h : BillingError -> M B) : clause B :=
  fun e => match e with BillingErr b => Some (h b) | _ => None end.

Definition except_Exception {B} (h : exn -> M B) : clause B :=
  fun e => Some (h e).

Fixpoint select {B} (clauses : list (clause B)) (e : exn) : option (M B) :=
  match clauses with
  | [] => None
  | c :: rest =>
      match c e with
      | Some h => Some h
      | None => select rest e
      end
  end.

(** [try: body / except ...: / else: orelse].  The first clause that
    matches handles the exception; with no match it propagates. *)
Definition try_except {A B} (body : M A) (clauses : list (clause B))
    (orelse : A -> M B) : M B :=
  fun w =>
    match body w with
    | (Ok a, w') => orelse a w'
    | (Raise e, w') =>
        match select clauses e with
        | Some h => h w'
        | None => (Raise e, w')
        end
    end.

(** [Model.objects.filter(...).first()] *)
Definition first {A} (p : A -> bool) (l : list A) : option A := find p l.

(** [Model.objects.get(...)] *)
Definition get {A} (model : string) (p : A -> bool) (l : list A) : result A :=
  match filter p l with
  | [x] => Ok x
  | [] => Raise (OtherException (model ++ ".DoesNotExist") "")
  | _ => Raise (OtherException (model ++ ".MultipleObjectsReturned") "")
  end.

(** The Customer of a realm, if it has one. *)
Definition customer_for (r : Z) (w : World) : option Customer :=
  first (fun c => customer_realm c =? r) (customers w).

Definition customer_of_realm (r : Z) : M (option Customer) :=
  fun w => (Ok (customer_for r w), w).

Definition plan_by_stripe_id (id : string) : M Plan :=
  fun w => (get "Plan" (fun p => String.eqb (stripe_plan_id p) id) (plans w), w).

Definition log_record (r : LogRecord) (w : World) : World :=
  {| customers := customers w;
     customer_plans := customer_plans w;
     plans := plans w;
     billing_log := (billing_log w ++ [r])%list |}.

(** [logger.exception(format % (e,))] *)
Definition logger_exception (format : string) (e : exn) : M unit :=
  fun w => (Ok tt, log_record (LogException format e) w).

(** ** What the views import *)

(** The settings, and the constants and functions of corporate/lib/stripe.py
    and of the models that this file imports but does not define. *)
Class Environment := {
  (* django.conf.settings *)
  BILLING_ENABLED : bool;
  ZULIP_ADMINISTRATOR : string;
  (* corporate.lib.stripe *)
  STRIPE_PUBLISHABLE_KEY : string;
  MIN_INVOICED_LICENSES : Z;
  DEFAULT_INVOICE_DAYS_UNTIL_DUE : Z;
  CONTACT_SUPPORT : string;             (* BillingError.CONTACT_SUPPORT *)
  default_message : string;             (* the default of BillingError's message *)
  get_seat_count : Z -> M Z;
  stripe_get_customer : string -> M StripeCustomer;
  upcoming_invoice_total : string -> M Z;
  extract_current_subscription : StripeCustomer -> option Subscription;
  process_initial_upgrade : UserProfile -> option Z -> Z -> option string -> M unit;
  process_downgrade : UserProfile -> M unit;
  do_replace_payment_source : UserProfile -> string -> M unit;
  (* the keyed signature of django.core.signing.Signer, by salt and value *)
  signature : string -> string -> string;
  (* the source of fresh salts *)
  generate_random_token : M string;
  (* corporate.models *)
  ANNUAL : Z;
  MONTHLY : Z;
  CLOUD_ANNUAL : string;
  CLOUD_MONTHLY : string;
  (* django.utils.translation.ugettext *)
  ugettext : string -> string
}.

(** ** The views *)

Section Views.

Context {env : Environment}.

(** [BillingError(description)] and [BillingError(description, message)] *)
Definition new_BillingError (description : string) (message : option string)
  : BillingError :=
  {| description := description;
     message := match message with Some m => m | None => default_message end |}.

(** *** The seat-count signer *)

(** Modelled from the spec: [sign_string] and [unsign_string] are defined in
    corporate/lib/stripe.py, outside this file.  Section 4.1 and the design
    notes make the token a keyed signature over the count and a fresh random
    salt, verified by recomputing the signature; as the views import
    django.core.signing, the token has the Signer's form, the value, a colon
    and the signature. *)
Definition signed_value (salt value : string) : string :=
  value ++ ":" ++ signature salt value.

Definition sign_string (value : string) : M (string * string) :=
  salt <- generate_random_token ;;
  ret (signed_value salt value, salt).

Definition unsign_string (signed_string salt : string) : result string :=
  match Str.rsplit signed_string with
  | None => Raise BadSignature
  | Some (value, sig) =>
      if String.eqb sig (signature salt value) then Ok value
      else Raise BadSignature
  end.

(** lines 29-33 *)
Definition unsign_seat_count (signed_seat_count salt : string) : result Z :=
  match unsign_string signed_seat_count salt with
  | Ok s => py_int s
  | Raise BadSignature => Raise (BillingErr (new_BillingError "tampered seat count" None))
  | Raise e => Raise e
  end.

(** *** The upgrade validator, lines 35-54 *)

Definition check_upgrade_parameters
    (billing_modality schedule : string) (license_management : option string)
    (licenses : option Z) (has_stripe_token : bool) (seat_count : Z)
  : result unit :=
  if negb (Str.mem billing_modality ["send_invoice"; "charge_automatically"])
  then Raise (BillingErr (new_BillingError "unknown billing_modality" None))
  else if negb (Str.mem schedule ["annual"; "monthly"])
  then Raise (BillingErr (new_BillingError "unknown schedule" None))
  else if negb (Str.omem license_management ["automatic"; "manual"; "mix"])
  then Raise (BillingErr (new_BillingError "unknown license_management" None))
  else if (billing_modality =? "charge_automatically")%string && negb has_stripe_token
  then Raise (BillingErr (new_BillingError "autopay with no card" None))
  else
    let min_licenses :=
      if (billing_modality =? "send_invoice")%string
      then Z.max seat_count MIN_INVOICED_LICENSES
      else seat_count in
    if match licenses with None => true | Some n => n <? min_licenses end
    then Raise (BillingErr (new_BillingError "not enough licenses"
                  (Some (ugettext ("You must invoice for at least "
                                   ++ py_str min_licenses ++ " users.")))))
    else Ok tt.

(** *** The payment method line, lines 56-73 *)

Definition payment_method_string (stripe_customer : StripeCustomer) : string :=
  let subscription := extract_current_subscription stripe_customer in
  if match subscription with
     | Some sub => (billing sub =? "send_invoice")%string
     | None => false
     end
  then ugettext "Billed by invoice"
  else
    match default_source stripe_customer with
    | None => ugettext "No payment method on file"
    | Some stripe_source =>
        if (source_object stripe_source =? "card")%string
        then ugettext ("Card ending in " ++ last4 stripe_source)
        else ugettext ("Unknown payment method. Please contact "
                       ++ ZULIP_ADMINISTRATOR ++ ".")
    end.

(** *** The upgrade view, lines 75-107 *)

(** The type of the validator called at line 91. *)
Definition validator : Type :=
  string -> string -> option string -> option Z -> bool -> Z -> result unit.

(** The body of the [try], lines 85-97, with the validator it calls at
    line 91 as a parameter. *)
Definition upgrade_body (check : validator) (user : UserProfile)
    (billing_modality schedule : string) (license_management : option string)
    (licenses : option Z) (stripe_token : option string)
    (signed_seat_count salt : string) : M unit :=
  seat_count <- lift (unsign_seat_count signed_seat_count salt) ;;
  let licenses :=
    if (billing_modality =? "charge_automatically")%string
       && Str.oeqb license_management "automatic"
    then Some seat_count else licenses in
  let schedule :=
    if (billing_modality =? "send_invoice")%string then "annual" else schedule in
  let license_management :=
    if (billing_modality =? "send_invoice")%string then Some "manual"
    else license_management in
  lift (check billing_modality schedule license_management licenses
          (match stripe_token with Some _ => true | None => false end)
          seat_count) ;;;
  billing_schedule <- lift (dict_getitem [("annual", ANNUAL); ("monthly", MONTHLY)]
                                         schedule) ;;
  process_initial_upgrade user licenses billing_schedule stripe_token.

Definition upgrade_with (check : validator) (user : UserProfile)
    (billing_modality schedule : string) (license_management : option string)
    (licenses : option Z) (stripe_token : option string)
    (signed_seat_count salt : string) : M HttpResponse :=
  try_except
    (upgrade_body check user billing_modality schedule license_management
                  licenses stripe_token signed_seat_count salt)
    [ except_BillingError (fun e =>
        ret (json_error (message e) [("error_description", description e)]));
      except_Exception (fun e =>
        logger_exception "Uncaught exception in billing: %s" e ;;;
        let error_message := CONTACT_SUPPORT in
        let error_description := "uncaught exception during upgrade" in
        ret (json_error error_message [("error_description", error_description)])) ]
    (fun _ => ret json_success).

Definition upgrade : UserProfile -> string -> string -> option string ->
    option Z -> option string -> string -> string -> M HttpResponse :=
  upgrade_with check_upgrade_parameters.

(** *** The upgrade page, lines 109-142 *)

Definition initial_upgrade (user : UserProfile) : M HttpResponse :=
  if negb BILLING_ENABLED then ret (render "404.html" [])
  else
    customer <- customer_of_realm (realm user) ;;
    if match customer with
       | Some c => has_billing_relationship c
       | None => false
       end
    then ret (HttpResponseRedirect (reverse "corporate.views.billing_home"))
    else
      let percent_off : Q :=
        match customer with
        | Some c => match default_discount c with Some d => d | None => 0%Q end
        | None => 0%Q
        end in
      seat_count <- get_seat_count (realm user) ;;
      signed <- sign_string (py_str seat_count) ;;
      let '(signed_seat_count, salt) := signed in
      let context :=
        [ ("publishable_key", VStr STRIPE_PUBLISHABLE_KEY);
          ("email", VStr (email user));
          ("seat_count", VInt seat_count);
          ("signed_seat_count", VStr signed_seat_count);
          ("salt", VStr salt);
          ("min_invoiced_licenses", VInt (Z.max seat_count MIN_INVOICED_LICENSES));
          ("default_invoice_days_until_due", VInt DEFAULT_INVOICE_DAYS_UNTIL_DUE);
          ("plan", VStr "Zulip Standard");
          ("page_params", VJson
             [ ("seat_count", VInt seat_count);
               ("annual_price", VInt 8000);
               ("monthly_price", VInt 800);
               ("percent_off", VFloat percent_off) ]) ] in
      ret (render "corporate/upgrade.html" context).

(** *** The billing page, lines 144-199 *)

Definition PLAN_NAMES : list (string * string) :=
  [ (CLOUD_ANNUAL, "Zulip Standard (billed annually)");
    (CLOUD_MONTHLY, "Zulip Standard (billed monthly)") ].

Definition billing_home (user : UserProfile) : M HttpResponse :=
  customer <- customer_of_realm (realm user) ;;
  match customer with
  | None => ret (HttpResponseRedirect (reverse "corporate.views.initial_upgrade"))
  | Some customer =>
      if negb (has_billing_relationship customer)
      then ret (HttpResponseRedirect (reverse "corporate.views.initial_upgrade"))
      else if negb (is_realm_admin user) && negb (is_billing_admin user)
      then ret (render "corporate/billing.html" [("admin_access", VBool false)])
      else
        let context := [("admin_access", VBool true)] in
        stripe_customer <- stripe_get_customer (stripe_customer_id customer) ;;
        let context :=
          if account_balance stripe_customer >? 0
          then (context ++ [("account_charges", VMoney (account_balance stripe_customer))])%list
          else context in
        let context :=
          if account_balance stripe_customer <? 0
          then (context ++ [("account_credits", VMoney (- account_balance stripe_customer))])%list
          else context in
        let billed_by_invoice := false in
        let subscription := extract_current_subscription stripe_customer in
        shown <-
          match subscription with
          | Some subscription =>
              plan <- plan_by_stripe_id (subscription_plan_id subscription) ;;
              plan_name <- lift (dict_getitem PLAN_NAMES (nickname plan)) ;;
              let licenses := quantity subscription in
              let renewal_date := VDate (current_period_end subscription) in
              renewal_amount <- upcoming_invoice_total (stripe_customer_id customer) ;;
              let billed_by_invoice :=
                if (billing subscription =? "send_invoice")%string then true
                else billed_by_invoice in
              ret (plan_name, licenses, renewal_date, renewal_amount, billed_by_invoice)
          | None =>
              ret ("Zulip Free", 0, VStr "", 0, billed_by_invoice)
          end ;;
        let '(plan_name, licenses, renewal_date, renewal_amount, billed_by_invoice) :=
          shown in
        let context := (context ++
          [ ("plan_name", VStr plan_name);
            ("licenses", VInt licenses);
            ("renewal_date", renewal_date);
            ("renewal_amount", VMoney renewal_amount);
            ("payment_method", VStr (payment_method_string stripe_customer));
            ("billed_by_invoice", VBool billed_by_invoice);
            ("publishable_key", VStr STRIPE_PUBLISHABLE_KEY);
            ("stripe_email", VStr (stripe_email stripe_customer)) ])%list in
        ret (render "corporate/billing.html" context)
  end.

(** *** Downgrade and payment-source replacement, lines 201-217 *)

Definition downgrade (user : UserProfile) : M HttpResponse :=
  try_except (process_downgrade user)
    [ except_BillingError (fun e =>
        ret (json_error (message e) [("error_description", description e)])) ]
    (fun _ => ret json_success).

Definition replace_payment_source (user : UserProfile) (stripe_token : string)
  : M HttpResponse :=
  try_except (do_replace_payment_source user stripe_token)
    [ except_BillingError (fun e =>
        ret (json_error (message e) [("error_description", description e)])) ]
    (fun _ => ret json_success).

End Views.

(** ** The validation rules as the description lists them *)

Section Rules.

Context {env : Environment}.

(** The parameters of one validation. *)
Record Parameters := {
  p_billing_modality : string;
  p_schedule : string;
  p_license_management : option string;
  p_licenses : option Z;
  p_has_stripe_token : bool;
  p_seat_count : Z
}.

(** A rule gives the error of the parameters that violate it. *)
Definition rule : Type := Parameters -> option BillingError.

Definition rule_billing_modality : rule := fun p =>
  if Str.mem (p_billing_modality p) ["send_invoice"; "charge_automatically"]
  then None else Some (new_BillingError "unknown billing_modality" None).

Definition rule_schedule : rule := fun p =>
  if Str.mem (p_schedule p) ["annual"; "monthly"]
  then None else Some (new_BillingError "unknown schedule" None).

Definition rule_license_management : rule := fun p =>
  if Str.omem (p_license_management p) ["automatic"; "manual"; "mix"]
  then None else Some (new_BillingError "unknown license_management" None).

Definition rule_payment_token : rule := fun p =>
  if (p_billing_modality p =? "charge_automatically")%string
     && negb (p_has_stripe_token p)
  then Some (new_BillingError "autopay with no card" None) else None.

(** The minimum of section 4.2. *)
Definition minimum_licenses (billing_modality : string) (seat_count : Z) : Z :=
  if (billing_modality =? "send_invoice")%string
  then Z.max seat_count MIN_INVOICED_LICENSES
  else seat_count.

Definition insufficient_licenses (minimum : Z) : BillingError :=
  new_BillingError "not enough licenses"
    (Some (ugettext ("You must invoice for at least " ++ py_str minimum ++ " users."))).

Definition rule_minimum_licenses : rule := fun p =>
  let minimum := minimum_licenses (p_billing_modality p) (p_seat_count p) in
  match p_licenses p with
  | None => Some (insufficient_licenses minimum)
  | Some n => if n <? minimum then Some (insufficient_licenses minimum) else None
  end.

(** The rules in the order of section 4.2. *)
Definition rules : list rule :=
  [ rule_billing_modality; rule_schedule; rule_license_management;
    rule_payment_token; rule_minimum_licenses ].

(** The error of the first rule violated, if any. *)
Fixpoint first_violation (rs : list rule) (p : Parameters) : option BillingError :=
  match rs with
  | [] => None
  | r :: rest =>
      match r p with
      | Some e => Some e
      | None => first_violation rest p
      end
  end.

Definition check (p : Parameters) : result unit :=
  check_upgrade_parameters (p_billing_modality p) (p_schedule p)
    (p_license_management p) (p_licenses p) (p_has_stripe_token p)
    (p_seat_count p).


(** The customer is billed by invoice: its current subscription has the
    billing mode send_invoice. *)
Definition billed_by_invoice (c : StripeCustomer) : Prop :=
  exists sub, extract_current_subscription c = Some sub
              /\ billing sub = "send_invoice".








End Rules.

(** ** A concrete environment *)

Module Demo.

Fixpoint checksum (s : string) : Z :=
  match s with
  | EmptyString => 7
  | String c r => (Z.of_nat (nat_of_ascii c) + 31 * checksum r) mod 1000003
  end.

(** A stand-in for the keyed signature: a decimal checksum of the salt and
    the value. *)
Definition toy_signature (salt value : string) : string :=
  py_str (checksum (salt ++ "signer" ++ value)).

(** The current subscription: the first one that is not canceled. *)
Definition current_subscription (c : StripeCustomer) : option Subscription :=
  find (fun s => negb (status s =? "canceled")%string) (subscriptions c).

Definition card : StripeSource :=
  {| source_object := "card"; last4 := "4242"; source_type := "" |}.

Definition ach : StripeSource :=
  {| source_object := "source"; last4 := ""; source_type := "ach_credit_transfer" |}.

Definition subscription (billing_mode : string) : Subscription :=
  {| billing := billing_mode; subscription_plan_id := "plan_annual";
     quantity := 12; current_period_end := 1546300800; status := "active" |}.

Definition stripe_customer (source : option StripeSource)
    (subs : list Subscription) : StripeCustomer :=
  {| account_balance := 0; default_source := source;
     stripe_email := "hamlet@zulip.com"; subscriptions := subs |}.

(** The processor's calls: they raise [failure] when one is given, and
    otherwise succeed; a first upgrade records the Customer and its plan. *)
Definition record_upgrade (user : UserProfile) (licenses : option Z)
    (schedule : Z) : M unit :=
  fun w =>
    (Ok tt,
     {| customers := (customers w ++
          [ {| customer_realm := realm user; stripe_customer_id := "cus_1";
               has_billing_relationship := true; default_discount := None |} ])%list;
        customer_plans := (customer_plans w ++
          [ {| plan_customer := "cus_1"; billing_schedule := schedule;
               plan_licenses := match licenses with Some n => n | None => 0 end |} ])%list;
        plans := plans w;
        billing_log := billing_log w |}).

Definition or_fail {A} (failure : option exn) (c : M A) : M A :=
  match failure with
  | Some e => raise e
  | None => c
  end.

Definition environment (billing_enabled : bool) (failure : option exn)
  : Environment :=
  {| BILLING_ENABLED := billing_enabled;
     ZULIP_ADMINISTRATOR := "zulip-admin@example.com";
     STRIPE_PUBLISHABLE_KEY := "pk_test";
     MIN_INVOICED_LICENSES := 25;
     DEFAULT_INVOICE_DAYS_UNTIL_DUE := 30;
     CONTACT_SUPPORT := "Something went wrong. Please contact zulip-admin@example.com.";
     default_message := "Something went wrong. Please contact zulip-admin@example.com.";
     get_seat_count := fun _ => ret 12;
     stripe_get_customer := fun _ =>
       or_fail failure (ret (stripe_customer (Some card) [subscription "charge_automatically"]));
     upcoming_invoice_total := fun _ => or_fail failure (ret 9600);
     extract_current_subscription := current_subscription;
     process_initial_upgrade := fun user licenses schedule _ =>
       or_fail failure (record_upgrade user licenses schedule);
     process_downgrade := fun _ => or_fail failure (ret tt);
     do_replace_payment_source := fun _ _ => or_fail failure (ret tt);
     signature := toy_signature;
     generate_random_token := ret "c2FsdA";
     ANNUAL := 1;
     MONTHLY := 2;
     CLOUD_ANNUAL := "annual";
     CLOUD_MONTHLY := "monthly";
     ugettext := fun s => s |}.

Definition standard : Environment := environment true None.

(** The processor is unreachable. *)
Definition unreachable : exn :=
  OtherException "stripe.error.APIConnectionError"
                 "Unexpected error communicating with Stripe (sk_live_0000)".

Definition failing : Environment := environment true (Some unreachable).

Definition hamlet : UserProfile :=
  {| realm := 1; email := "hamlet@zulip.com";
     is_realm_admin := true; is_billing_admin := false |}.

Definition empty_world : World :=
  {| customers := []; customer_plans := []; plans := []; billing_log := [] |}.

(** A realm that has upgraded. *)
Definition upgraded_world : World :=
  {| customers := [ {| customer_realm := 1; stripe_customer_id := "cus_1";
                       has_billing_relationship := true; default_discount := None |} ];
     customer_plans := [ {| plan_customer := "cus_1"; billing_schedule := 1;
                            plan_licenses := 12 |} ];
     plans := [ {| stripe_plan_id := "plan_annual"; nickname := "annual" |} ];
     billing_log := [] |}.

(** A realm with a Customer (a discount was recorded) that never upgraded. *)
Definition discounted_world : World :=
  {| customers := [ {| customer_realm := 1; stripe_customer_id := "cus_1";
                       has_billing_relationship := false;
                       default_discount := Some (85 # 1)%Q |} ];
     customer_plans := []; plans := []; billing_log := [] |}.

End Demo.

(** ** Further scenarios *)

Module Scenario.

(** The environment of [Demo.standard] with another answer of the
    processor to [stripe_get_customer]. *)
Definition with_customer (c : StripeCustomer) : Environment :=
  {| BILLING_ENABLED := true;
     ZULIP_ADMINISTRATOR := "zulip-admin@example.com";
     STRIPE_PUBLISHABLE_KEY := "pk_test";
     MIN_INVOICED_LICENSES := 25;
     DEFAULT_INVOICE_DAYS_UNTIL_DUE := 30;
     CONTACT_SUPPORT := "Something went wrong. Please contact zulip-admin@example.com.";
     default_message := "Something went wrong. Please contact zulip-admin@example.com.";
     get_seat_count := fun _ => ret 12;
     stripe_get_customer := fun _ => ret c;
     upcoming_invoice_total := fun _ => ret 9600;
     extract_current_subscription := Demo.current_subscription;
     process_initial_upgrade := fun user licenses schedule _ =>
       Demo.record_upgrade user licenses schedule;
     process_downgrade := fun _ => ret tt;
     do_replace_payment_source := fun _ _ => ret tt;
     signature := Demo.toy_signature;
     generate_random_token := ret "c2FsdA";
     ANNUAL := 1;
     MONTHLY := 2;
     CLOUD_ANNUAL := "annual";
     CLOUD_MONTHLY := "monthly";
     ugettext := fun s => s |}.

(** A customer that owes 12.50, with a card and an invoiced subscription. *)
Definition owing : StripeCustomer :=
  {| account_balance := 1250; default_source := Some Demo.card;
     stripe_email := "hamlet@zulip.com";
     subscriptions := [Demo.subscription "send_invoice"] |}.

(** A customer whose only subscription was canceled. *)
Definition canceled : StripeCustomer :=
  {| account_balance := -300; default_source := Some Demo.ach;
     stripe_email := "hamlet@zulip.com";
     subscriptions :=
       [ {| billing := "send_invoice"; subscription_plan_id := "plan_annual";
            quantity := 12; current_period_end := 1546300800;
            status := "canceled" |} ] |}.

(** A member of the realm who administers neither the realm nor billing. *)
Definition cordelia : UserProfile :=
  {| realm := 1; email := "cordelia@zulip.com";
     is_realm_admin := false; is_billing_admin := false |}.

(** The upgraded realm with an empty Plan table, and with a Plan whose
    nickname has no display name. *)
Definition without_plans : World :=
  {| customers := customers Demo.upgraded_world;
     customer_plans := customer_plans Demo.upgraded_world;
     plans := [];
     billing_log := [] |}.

Definition legacy_plan : World :=
  {| customers := customers Demo.upgraded_world;
     customer_plans := customer_plans Demo.upgraded_world;
     plans := [ {| stripe_plan_id := "plan_annual"; nickname := "legacy" |} ];
     billing_log := [] |}.

(** The processor refuses the card. *)
Definition declined : BillingError :=
  {| description := "card error"; message := "Your card was declined." |}.

End Scenario.

(** * Properties *)

(** ** Strings, [str] and [int] *)

Module StrFacts.
Import Str.

Lemma all_impl (p q : ascii -> bool) (s : string) :
  (forall c, p c = true -> q c = true) -> all p s = true -> all q s = true.
Proof.
  intros Hpq. induction s as [|c r IH]; simpl; trivial.
  rewrite !andb_true_iff. intros [Hc Hr]. auto.
Qed.

Lemma rsplit_sep_free (s : string) : sep_free s = true -> rsplit s = None.
Proof.
  unfold sep_free. induction s as [|c r IH]; simpl; trivial.
  rewrite andb_true_iff, negb_true_iff. intros [Hc Hr].
  now rewrite (IH Hr), Hc.
Qed.

Lemma rsplit_app (v sig : string) :
  sep_free sig = true -> rsplit (v ++ String colon sig) = Some (v, sig).
Proof.
  intros Hsig. induction v as [|c r IH]; simpl.
  - now rewrite (rsplit_sep_free _ Hsig).
  - now rewrite IH.
Qed.

Lemma rsplit_inv (s v sig : string) :
  rsplit s = Some (v, sig) -> s = v ++ String colon sig.
Proof.
  revert v. induction s as [|c r IH]; simpl; intros v; [discriminate|].
  destruct (rsplit r) as [[v' sig']|] eqn:Hr.
  - intros [= <- <-]. simpl. f_equal. now apply IH.
  - destruct (Ascii.eqb_spec c colon) as [->|_]; [|discriminate].
    now intros [= <- <-].
Qed.

Lemma lstrip_id (s : string) :
  all (fun c => negb (is_space c)) s = true -> lstrip s = s.
Proof.
  destruct s as [|c r]; simpl; trivial.
  rewrite andb_true_iff, negb_true_iff. now intros [-> _].
Qed.

Lemma rstrip_id (s : string) :
  all (fun c => negb (is_space c)) s = true -> rstrip s = s.
Proof.
  induction s as [|c r IH]; simpl; trivial.
  rewrite andb_true_iff, negb_true_iff. intros [Hc Hr].
  rewrite (IH Hr). destruct r; [now rewrite Hc | reflexivity].
Qed.

Lemma strip_id (s : string) :
  all (fun c => negb (is_space c)) s = true -> strip s = s.
Proof.
  intros Hs. unfold strip. rewrite (lstrip_id _ Hs). now apply rstrip_id.
Qed.

Lemma string_of_uint_digits (d : uint) :
  all is_digit (NilEmpty.string_of_uint d) = true.
Proof. induction d; simpl; trivial. Qed.

Lemma nilzero_string_of_uint_digits (d : uint) :
  all is_digit (NilZero.string_of_uint d) = true.
Proof. destruct d; try reflexivity; apply (string_of_uint_digits (_ _)). Qed.

Lemma py_str_chars (n : Z) : all is_minus_or_digit (py_str n) = true.
Proof.
  unfold py_str. destruct (Z.to_int n) as [d|d]; simpl.
  - eapply all_impl; [|apply nilzero_string_of_uint_digits].
    intros c Hc. unfold is_minus_or_digit. now rewrite Hc, orb_true_r.
  - eapply all_impl; [|apply nilzero_string_of_uint_digits].
    intros c Hc. unfold is_minus_or_digit. now rewrite Hc, orb_true_r.
Qed.

Lemma minus_or_digit_not_space (c : ascii) :
  is_minus_or_digit c = true -> negb (is_space c) = true.
Proof.
  destruct c as [[|] [|] [|] [|] [|] [|] [|] [|]]; vm_compute; congruence.
Qed.

Lemma minus_or_digit_not_colon (c : ascii) :
  is_minus_or_digit c = true -> negb (Ascii.eqb c colon) = true.
Proof.
  destruct c as [[|] [|] [|] [|] [|] [|] [|] [|]]; vm_compute; congruence.
Qed.

Lemma minus_or_digit_not_plus (c : ascii) :
  is_minus_or_digit c = true -> Ascii.eqb c "+" = false.
Proof.
  destruct c as [[|] [|] [|] [|] [|] [|] [|] [|]]; vm_compute; congruence.
Qed.

Lemma py_str_sep_free (n : Z) : sep_free (py_str n) = true.
Proof.
  unfold sep_free. eapply all_impl; [|apply py_str_chars].
  apply minus_or_digit_not_colon.
Qed.

Lemma to_int_not_nil (n : Z) : Z.to_int n <> Pos Nil /\ Z.to_int n <> Neg Nil.
Proof.
  pose proof (DecimalZ.to_of (Z.to_int n)) as H.
  rewrite DecimalZ.of_to in H. rewrite H.
  destruct (Z.to_int n) as [d|d]; simpl.
  - split; [|discriminate].
    intros [= E]. now apply (unorm_nonnil d).
  - split.
    + destruct (nzhead d); discriminate.
    + destruct (nzhead d); discriminate.
Qed.

Lemma digit_not_sign (c : ascii) :
  is_digit c = true ->
  Ascii.eqb c "+" = false /\ Ascii.eqb c "-" = false /\ Ascii.eqb c "_" = false.
Proof.
  destruct c as [[|] [|] [|] [|] [|] [|] [|] [|]]; vm_compute;
    repeat split; congruence.
Qed.

Lemma group_digits_id (s : string) :
  all is_digit s = true ->
  group_digits true s = Some s
  /\ (s <> EmptyString -> group_digits false s = Some s).
Proof.
  induction s as [|c r IH]; simpl.
  - intros _. split; [reflexivity | now intros []].
  - rewrite andb_true_iff. intros [Hc Hr]. rewrite Hc.
    destruct (IH Hr) as [-> _]. split; [reflexivity | now intros _].
Qed.

Lemma unsigned_literal_digits (d : uint) :
  d <> Nil -> unsigned_literal (NilZero.string_of_uint d) = Some d.
Proof.
  intros Hd. unfold unsigned_literal.
  destruct (group_digits_id _ (nilzero_string_of_uint_digits d)) as [_ Hg].
  rewrite Hg by (destruct d; discriminate || now destruct Hd).
  now apply NilZero.usu.
Qed.

(** [int(str(n)) == n] *)
Lemma py_int_py_str (n : Z) : py_int (py_str n) = Ok n.
Proof.
  unfold py_int. rewrite strip_id.
  2:{ eapply all_impl; [|apply py_str_chars]. apply minus_or_digit_not_space. }
  assert (Hlit : int_literal (py_str n) = Some (Z.to_int n)).
  { pose proof (to_int_not_nil n) as [Hp Hn]. unfold py_str.
    destruct (Z.to_int n) as [d|d]; cbn [NilZero.string_of_int].
    - assert (Hd : d <> Nil) by (intros ->; now destruct Hp).
      pose proof (unsigned_literal_digits d Hd) as Hu.
      pose proof (nilzero_string_of_uint_digits d) as Hdig.
      unfold int_literal.
      destruct (NilZero.string_of_uint d) as [|c r] eqn:Hs.
      + discriminate Hu.
      + cbn [all] in Hdig. apply andb_true_iff in Hdig as [Hc _].
        destruct (digit_not_sign c Hc) as (-> & -> & _). now rewrite Hu.
    - assert (Hd : d <> Nil) by (intros ->; now destruct Hn).
      unfold int_literal. cbn.
      now rewrite (unsigned_literal_digits d Hd). }
  rewrite Hlit. now rewrite DecimalZ.of_to.
Qed.

End StrFacts.

(** ** The upgrade validator *)

Section ValidatorFacts.

Context {env : Environment}.

(** [licenses is None or licenses < minimum] *)
Definition too_few (licenses : option Z) (minimum : Z) : bool :=
  match licenses with
  | None => true
  | Some n => n <? minimum
  end.

Lemma check_valid_enums (billing_modality schedule : string)
    (license_management : option string) (licenses : option Z)
    (has_stripe_token : bool) (seat_count : Z) :
  Str.mem billing_modality ["send_invoice"; "charge_automatically"] = true ->
  Str.mem schedule ["annual"; "monthly"] = true ->
  Str.omem license_management ["automatic"; "manual"; "mix"] = true ->
  check_upgrade_parameters billing_modality schedule license_management
    licenses has_stripe_token seat_count =
  if (billing_modality =? "charge_automatically")%string && negb has_stripe_token
  then Raise (BillingErr (new_BillingError "autopay with no card" None))
  else if too_few licenses (minimum_licenses billing_modality seat_count)
  then Raise (BillingErr (insufficient_licenses
                            (minimum_licenses billing_modality seat_count)))
  else Ok tt.
Proof.
  intros Hb Hs Hl. unfold check_upgrade_parameters.
  rewrite Hb, Hs, Hl. reflexivity.
Qed.

(** C10. [check_upgrade_parameters] raises the error of the first rule its
    parameters violate, the rules taken in the order billing modality,
    schedule, license management, payment token, minimum licenses; it
    returns normally when no rule is violated. *)
Theorem check_upgrade_parameters_first_violation (p : Parameters) :
  check p = match first_violation rules p with
            | Some e => Raise (BillingErr e)
            | None => Ok tt
            end.
Proof.
  destruct p as [bm sch lm lic tok seat].
  unfold check, check_upgrade_parameters, rules, first_violation,
    rule_billing_modality, rule_schedule, rule_license_management,
    rule_payment_token, rule_minimum_licenses, insufficient_licenses,
    minimum_licenses; cbn [p_billing_modality p_schedule p_license_management
    p_licenses p_has_stripe_token p_seat_count].
  destruct (Str.mem bm _); cbn [negb]; [|reflexivity].
  destruct (Str.mem sch _); cbn [negb]; [|reflexivity].
  destruct (Str.omem lm _); cbn [negb]; [|reflexivity].
  destruct ((bm =? "charge_automatically")%string && negb tok); [reflexivity|].
  destruct lic as [n|]; [|reflexivity].
  destruct (n <? _); reflexivity.
Qed.

(** C3. With the schedule and the license management among the known
    values: an invoiced upgrade fails exactly when the licenses are absent
    or below [max(seat_count, MIN_INVOICED_LICENSES)], with the
    not-enough-licenses error whose message is written with that maximum;
    an automatically charged upgrade with a card does so against
    [seat_count]. *)
Theorem invoiced_minimum_licenses (schedule : string)
    (license_management : option string) (licenses : option Z)
    (has_stripe_token : bool) (seat_count : Z) :
  Str.mem schedule ["annual"; "monthly"] = true ->
  Str.omem license_management ["automatic"; "manual"; "mix"] = true ->
  check_upgrade_parameters "send_invoice" schedule license_management licenses
    has_stripe_token seat_count =
  (if too_few licenses (Z.max seat_count MIN_INVOICED_LICENSES)
   then Raise (BillingErr
     {| description := "not enough licenses";
        message := ugettext ("You must invoice for at least "
                     ++ py_str (Z.max seat_count MIN_INVOICED_LICENSES)
                     ++ " users.") |})
   else Ok tt)
  /\
  check_upgrade_parameters "charge_automatically" schedule license_management
    licenses true seat_count =
  (if too_few licenses seat_count
   then Raise (BillingErr
     {| description := "not enough licenses";
        message := ugettext ("You must invoice for at least "
                     ++ py_str seat_count ++ " users.") |})
   else Ok tt).
Proof.
  intros Hs Hl. split; rewrite check_valid_enums by (trivial; reflexivity);
    reflexivity.
Qed.

(** C4, as amended.  With the schedule and the license management among the
    known values, an automatically charged upgrade without a payment token
    fails with the autopay-with-no-card error, whatever the licenses and
    the seat count. *)
Theorem missing_payment_method (schedule : string)
    (license_management : option string) (licenses : option Z)
    (seat_count : Z) :
  Str.mem schedule ["annual"; "monthly"] = true ->
  Str.omem license_management ["automatic"; "manual"; "mix"] = true ->
  check_upgrade_parameters "charge_automatically" schedule license_management
    licenses false seat_count =
  Raise (BillingErr {| description := "autopay with no card";
                       message := default_message |}).
Proof.
  intros Hs Hl. rewrite check_valid_enums by (trivial; reflexivity).
  reflexivity.
Qed.

End ValidatorFacts.

Lemma invoiced_minimum_licenses_witness :
  Str.mem "annual" ["annual"; "monthly"] = true /\
  Str.omem (Some "manual") ["automatic"; "manual"; "mix"] = true /\
  check_upgrade_parameters (env := Demo.standard)
    "send_invoice" "annual" (Some "manual") (Some 5) false 12 =
  Raise (BillingErr
    {| description := "not enough licenses";
       message := "You must invoice for at least 25 users." |}).
Proof.
  split; [reflexivity|]. split; [reflexivity|].
  exact (proj1 (invoiced_minimum_licenses (env := Demo.standard)
                  "annual" (Some "manual") (Some 5) false 12
                  eq_refl eq_refl)).
Defined.

Lemma missing_payment_method_witness :
  Str.mem "monthly" ["annual"; "monthly"] = true /\
  Str.omem (Some "automatic") ["automatic"; "manual"; "mix"] = true /\
  check_upgrade_parameters (env := Demo.standard)
    "charge_automatically" "monthly" (Some "automatic") None false 12 =
  Raise (BillingErr
    {| description := "autopay with no card";
       message := "Something went wrong. Please contact zulip-admin@example.com." |}).
Proof.
  split; [reflexivity|]. split; [reflexivity|].
  exact (missing_payment_method (env := Demo.standard)
           "monthly" (Some "automatic") None 12 eq_refl eq_refl).
Defined.

(** C4 as stated fails: without a payment token under automatic charging,
    an unknown schedule is reported first. *)
Lemma missing_payment_method_unknown_schedule :
  check_upgrade_parameters (env := Demo.standard)
    "charge_automatically" "weekly" (Some "manual") (Some 12) false 12 =
  Raise (BillingErr
    {| description := "unknown schedule";
       message := "Something went wrong. Please contact zulip-admin@example.com." |})
  /\
  check_upgrade_parameters (env := Demo.standard)
    "charge_automatically" "weekly" (Some "manual") (Some 12) false 12 <>
  Raise (BillingErr
    {| description := "autopay with no card";
       message := "Something went wrong. Please contact zulip-admin@example.com." |}).
Proof. split; [reflexivity | discriminate]. Qed.

(** ** The payment method line *)

Section PaymentMethodFacts.

Context {env : Environment}.

Lemma billed_by_invoice_test (c : StripeCustomer) :
  billed_by_invoice c <->
  match extract_current_subscription c with
  | Some sub => (billing sub =? "send_invoice")%string
  | None => false
  end = true.
Proof.
  unfold billed_by_invoice. split.
  - intros (sub & -> & ->). reflexivity.
  - destruct (extract_current_subscription c) as [sub|]; [|discriminate].
    intros H. exists sub. split; [reflexivity|]. now apply String.eqb_eq.
Qed.

(** C6. The payment method line is, in this order of priority: the invoice
    line when the customer is billed by invoice, whatever its default
    source; otherwise the no-payment-method line when there is no default
    source; otherwise the card line with the card's last four digits;
    otherwise one contact-support line, the same for every source that is
    not a card. *)
Theorem payment_method_string_priority (c : StripeCustomer) :
  (billed_by_invoice c ->
   payment_method_string c = ugettext "Billed by invoice")
  /\
  (~ billed_by_invoice c -> default_source c = None ->
   payment_method_string c = ugettext "No payment method on file")
  /\
  (forall source,
   ~ billed_by_invoice c -> default_source c = Some source ->
   source_object source = "card" ->
   payment_method_string c = ugettext ("Card ending in " ++ last4 source))
  /\
  (forall source,
   ~ billed_by_invoice c -> default_source c = Some source ->
   source_object source <> "card" ->
   payment_method_string c =
   ugettext ("Unknown payment method. Please contact "
             ++ ZULIP_ADMINISTRATOR ++ ".")).
Proof.
  unfold payment_method_string.
  pose proof (billed_by_invoice_test c) as Hb.
  destruct (match extract_current_subscription c with
            | Some sub => (billing sub =? "send_invoice")%string
            | None => false
            end).
  - assert (Hc : billed_by_invoice c) by now apply Hb.
    repeat split; trivial; intros; contradiction.
  - repeat split.
    + intros Hc. apply Hb in Hc. discriminate.
    + intros _ ->. reflexivity.
    + intros source _ -> Hcard. rewrite Hcard. reflexivity.
    + intros source _ -> Hcard.
      apply String.eqb_neq in Hcard. rewrite Hcard. reflexivity.
Qed.

End PaymentMethodFacts.

Ltac not_invoiced :=
  let H := fresh in intros H; apply billed_by_invoice_test in H; discriminate H.

Lemma payment_method_string_priority_witness :
  let invoiced := Demo.stripe_customer (Some Demo.card) [Demo.subscription "send_invoice"] in
  let bare := Demo.stripe_customer None [Demo.subscription "charge_automatically"] in
  let carded := Demo.stripe_customer (Some Demo.card) [Demo.subscription "charge_automatically"] in
  let downgraded := Demo.stripe_customer (Some Demo.ach) [] in
  payment_method_string (env := Demo.standard) invoiced = "Billed by invoice"
  /\ payment_method_string (env := Demo.standard) bare = "No payment method on file"
  /\ payment_method_string (env := Demo.standard) carded = "Card ending in 4242"
  /\ payment_method_string (env := Demo.standard) downgraded =
     "Unknown payment method. Please contact zulip-admin@example.com.".
Proof.
  cbv zeta. split; [|split; [|split]].
  - apply (proj1 (payment_method_string_priority (env := Demo.standard) _)).
    exists (Demo.subscription "send_invoice"). split; reflexivity.
  - apply (proj1 (proj2 (payment_method_string_priority (env := Demo.standard) _)));
      [not_invoiced | reflexivity].
  - apply (proj1 (proj2 (proj2 (payment_method_string_priority (env := Demo.standard) _)))
             Demo.card); [not_invoiced | reflexivity | reflexivity].
  - apply (proj2 (proj2 (proj2 (payment_method_string_priority (env := Demo.standard) _)))
             Demo.ach); [not_invoiced | reflexivity | discriminate].
Defined.

(** ** The seat-count signer *)

Section SignerFacts.

Context {env : Environment}.

(** The signature is written in an alphabet without the separator (the
    Signer writes it in URL-safe base64). *)
Definition urlsafe_signature : Prop :=
  forall salt value, Str.sep_free (signature salt value) = true.

Definition tampered_seat_count : exn :=
  BillingErr {| description := "tampered seat count";
                message := default_message |}.

Lemma rsplit_signed (salt value : string) :
  Str.sep_free (signature salt value) = true ->
  Str.rsplit (signed_value salt value) = Some (value, signature salt value).
Proof. intros Hsig. exact (StrFacts.rsplit_app _ _ Hsig). Qed.

Lemma unsign_signed (salt value : string) :
  Str.sep_free (signature salt value) = true ->
  unsign_string (signed_value salt value) salt = Ok value.
Proof.
  intros Hsig. unfold unsign_string.
  rewrite (rsplit_signed _ _ Hsig). now rewrite String.eqb_refl.
Qed.

Lemma unsign_string_inv (signed salt value : string) :
  unsign_string signed salt = Ok value -> signed = signed_value salt value.
Proof.
  unfold unsign_string.
  destruct (Str.rsplit signed) as [[v sig]|] eqn:Hsplit; [|discriminate].
  apply StrFacts.rsplit_inv in Hsplit.
  destruct (String.eqb_spec sig (signature salt v)) as [->|_]; [|discriminate].
  now intros [= <-].
Qed.

Lemma unsign_string_raises (signed salt : string) (e : exn) :
  unsign_string signed salt = Raise e -> e = BadSignature.
Proof.
  unfold unsign_string.
  destruct (Str.rsplit signed) as [[v sig]|]; [|now intros [= <-]].
  destruct (sig =? signature salt v)%string; [discriminate | now intros [= <-]].
Qed.

Lemma unsign_forged (signed salt : string) :
  (forall value, signed <> signed_value salt value) ->
  unsign_string signed salt = Raise BadSignature.
Proof.
  intros Hforged. destruct (unsign_string signed salt) as [value|e] eqn:Hu.
  - apply unsign_string_inv in Hu. now destruct (Hforged value).
  - now rewrite (unsign_string_raises _ _ _ Hu).
Qed.

(** Whatever was signed under the salt is accepted and read as an integer,
    the count it was issued for or not. *)
Lemma unsign_seat_count_signed (salt value : string) :
  Str.sep_free (signature salt value) = true ->
  unsign_seat_count (signed_value salt value) salt = py_int value.
Proof.
  intros Hsig. unfold unsign_seat_count. now rewrite unsign_signed.
Qed.

Lemma sign_string_inv (value signed salt : string) (w w' : World) :
  sign_string value w = (Ok (signed, salt), w') ->
  signed = signed_value salt value.
Proof.
  unfold sign_string, bind, ret.
  destruct (generate_random_token w) as [[t|e] w1]; [|discriminate].
  now intros [= <- <- _].
Qed.

(** C1, as amended.  A seat count signed by [sign_string] is read back by
    [unsign_seat_count] from the signed value and the salt; and a signed
    value that is not what the signer writes for any value under the given
    salt is refused with the tampered-seat-count error. *)
Theorem unsign_seat_count_round_trip :
  (forall (count : Z) (signed salt : string) (w w' : World),
     urlsafe_signature ->
     sign_string (py_str count) w = (Ok (signed, salt), w') ->
     unsign_seat_count signed salt = Ok count)
  /\
  (forall signed salt : string,
     (forall value, signed <> signed_value salt value) ->
     unsign_seat_count signed salt = Raise tampered_seat_count).
Proof.
  split.
  - intros count signed salt w w' Hsafe Hsign.
    rewrite (sign_string_inv _ _ _ _ _ Hsign).
    rewrite unsign_seat_count_signed by apply Hsafe.
    apply StrFacts.py_int_py_str.
  - intros signed salt Hforged. unfold unsign_seat_count.
    now rewrite (unsign_forged _ _ Hforged).
Qed.

End SignerFacts.

Lemma toy_urlsafe : urlsafe_signature (env := Demo.standard).
Proof. intros salt value. apply StrFacts.py_str_sep_free. Qed.

Lemma toy_forged (value : string) :
  "12:forged" <> signed_value (env := Demo.standard) "c2FsdA" value.
Proof.
  intros E. apply (f_equal Str.rsplit) in E.
  rewrite rsplit_signed in E by apply toy_urlsafe.
  change (Str.rsplit "12:forged") with (Some ("12", "forged")) in E.
  injection E as <- E. vm_compute in E. discriminate E.
Qed.

Lemma unsign_seat_count_round_trip_witness :
  urlsafe_signature (env := Demo.standard)
  /\ sign_string (env := Demo.standard) (py_str 12) Demo.empty_world =
     (Ok ("12:48650", "c2FsdA"), Demo.empty_world)
  /\ unsign_seat_count (env := Demo.standard) "12:48650" "c2FsdA" = Ok 12
  /\ (forall value,
        "12:forged" <> signed_value (env := Demo.standard) "c2FsdA" value)
  /\ unsign_seat_count (env := Demo.standard) "12:forged" "c2FsdA" =
     Raise (BillingErr
       {| description := "tampered seat count";
          message := "Something went wrong. Please contact zulip-admin@example.com." |}).
Proof.
  split; [exact toy_urlsafe|]. split; [reflexivity|].
  split; [|split; [exact toy_forged|]].
  - exact (proj1 (unsign_seat_count_round_trip (env := Demo.standard))
             12 "12:48650" "c2FsdA" Demo.empty_world Demo.empty_world
             toy_urlsafe eq_refl).
  - exact (proj2 (unsign_seat_count_round_trip (env := Demo.standard))
             "12:forged" "c2FsdA" toy_forged).
Defined.

(** C1 as stated fails: the pair issued for an earlier quote of 5 seats,
    under its own salt, differs in signed value and in salt from the pair
    issued for 12 seats, and verifies to 5. *)
Lemma replayed_seat_count_accepted :
  let issued := (signed_value (env := Demo.standard) "c2FsdA" (py_str 12), "c2FsdA") in
  let replayed := (signed_value (env := Demo.standard) "b2xkZXI" (py_str 5), "b2xkZXI") in
  fst replayed <> fst issued
  /\ snd replayed <> snd issued
  /\ unsign_seat_count (env := Demo.standard) (fst replayed) (snd replayed) = Ok 5
  /\ unsign_seat_count (env := Demo.standard) (fst replayed) (snd replayed)
     <> Raise (tampered_seat_count (env := Demo.standard)).
Proof.
  cbv zeta. split; [vm_compute; discriminate|].
  split; [vm_compute; discriminate|].
  split; [vm_compute; reflexivity | vm_compute; discriminate].
Qed.

(** ** The upgrade view *)

Section UpgradeFacts.

Context {env : Environment}.






(** C7. The upgrade view always returns a response.  A BillingError of its
    body becomes the error response with the error's message and, as
    error_description, its description; any other exception is logged and
    becomes the contact-support response with the description 'uncaught
    exception during upgrade', which holds nothing of the exception; a
    body that returns becomes the success response. *)
Theorem upgrade_error_classification (user : UserProfile)
    (billing_modality schedule : string) (license_management : option string)
    (licenses : option Z) (stripe_token : option string)
    (signed_seat_count salt : string) (w : World) :
  let body := upgrade_body check_upgrade_parameters user billing_modality
                schedule license_management licenses stripe_token
                signed_seat_count salt in
  let view := upgrade user billing_modality schedule license_management
                licenses stripe_token signed_seat_count salt in
  (exists response w', view w = (Ok response, w'))
  /\
  (forall b w', body w = (Raise (BillingErr b), w') ->
     view w = (Ok (json_error (message b)
                     [("error_description", description b)]), w'))
  /\
  (forall e w', body w = (Raise e, w') -> (forall b, e <> BillingErr b) ->
     view w = (Ok (json_error CONTACT_SUPPORT
                     [("error_description", "uncaught exception during upgrade")]),
               log_record (LogException "Uncaught exception in billing: %s" e) w'))
  /\
  (forall w', body w = (Ok tt, w') -> view w = (Ok json_success, w')).
Proof.
  cbv zeta. unfold upgrade, upgrade_with, try_except.
  destruct (upgrade_body _ _ _ _ _ _ _ _ _ w) as [[[]|e] w1].
  - split; [eexists _, _; reflexivity|].
    split; [discriminate|]. split; [discriminate|].
    now intros w' [= <-].
  - split.
    { destruct e; eexists _, _; reflexivity. }
    split; [|split; [|discriminate]].
    + intros b w' [= -> <-]. reflexivity.
    + intros e' w' [= <- <-] Hother.
      destruct e as [b| | | |]; [now destruct (Hother b)|..]; reflexivity.
Qed.

End UpgradeFacts.


Lemma upgrade_error_classification_witness :
  upgrade (env := Demo.standard) Demo.hamlet "charge_automatically" "monthly"
    (Some "automatic") None (Some "tok_visa") "12:forged" "c2FsdA"
    Demo.empty_world =
  (Ok (json_error "Something went wrong. Please contact zulip-admin@example.com."
         [("error_description", "tampered seat count")]),
   Demo.empty_world)
  /\
  upgrade (env := Demo.failing) Demo.hamlet "charge_automatically" "monthly"
    (Some "automatic") None (Some "tok_visa") "12:48650" "c2FsdA"
    Demo.empty_world =
  (Ok (json_error "Something went wrong. Please contact zulip-admin@example.com."
         [("error_description", "uncaught exception during upgrade")]),
   {| customers := []; customer_plans := []; plans := [];
      billing_log := [LogException "Uncaught exception in billing: %s"
                                   Demo.unreachable] |})
  /\
  upgrade (env := Demo.standard) Demo.hamlet "charge_automatically" "monthly"
    (Some "automatic") None (Some "tok_visa") "12:48650" "c2FsdA"
    Demo.empty_world =
  (Ok json_success,
   {| customers := [ {| customer_realm := 1; stripe_customer_id := "cus_1";
                        has_billing_relationship := true;
                        default_discount := None |} ];
      customer_plans := [ {| plan_customer := "cus_1"; billing_schedule := 2;
                             plan_licenses := 12 |} ];
      plans := []; billing_log := [] |}).
Proof.
  split; [|split].
  - exact (proj1 (proj2 (upgrade_error_classification (env := Demo.standard)
             Demo.hamlet "charge_automatically" "monthly" (Some "automatic")
             None (Some "tok_visa") "12:forged" "c2FsdA" Demo.empty_world))
             {| description := "tampered seat count";
                message := default_message (Environment := Demo.standard) |}
             Demo.empty_world eq_refl).
  - refine (proj1 (proj2 (proj2 (upgrade_error_classification (env := Demo.failing)
             Demo.hamlet "charge_automatically" "monthly" (Some "automatic")
             None (Some "tok_visa") "12:48650" "c2FsdA" Demo.empty_world)))
             Demo.unreachable Demo.empty_world eq_refl _).
    discriminate.
  - exact (proj2 (proj2 (proj2 (upgrade_error_classification (env := Demo.standard)
             Demo.hamlet "charge_automatically" "monthly" (Some "automatic")
             None (Some "tok_visa") "12:48650" "c2FsdA" Demo.empty_world)))
             _ eq_refl).
Defined.

(** ** Routing between the upgrade page and the billing page *)

Section RoutingFacts.

Context {env : Environment}.

(** A realm without any Customer row has no Customer. *)
Lemma customer_for_none (r : Z) (w : World) :
  customer_for r w = None <->
  (forall c, In c (customers w) -> customer_realm c <> r).
Proof.
  unfold customer_for, first. split.
  - intros Hnone c Hin Hr.
    pose proof (find_none _ _ Hnone c Hin) as Hc. cbn in Hc.
    apply Z.eqb_neq in Hc. contradiction.
  - intros Hall. destruct (find _ (customers w)) as [c|] eqn:Hfind; trivial.
    apply find_some in Hfind as [Hin Hr]. apply Z.eqb_eq in Hr.
    now destruct (Hall c Hin).
Qed.

(** C5, as amended.  With billing enabled, the upgrade page of a realm whose
    Customer has a billing relationship is the redirect to the billing
    page, and the world is left as it was: no seat count is read, nothing
    is signed and no Customer or CustomerPlan is written.  With billing
    disabled the page is the 404 page, and the world is left as it was. *)
Theorem initial_upgrade_redirects_existing_customer (user : UserProfile)
    (w : World) :
  (forall c,
     BILLING_ENABLED = true ->
     customer_for (realm user) w = Some c ->
     has_billing_relationship c = true ->
     initial_upgrade user w =
     (Ok (HttpResponseRedirect (reverse "corporate.views.billing_home")), w))
  /\
  (BILLING_ENABLED = false ->
   initial_upgrade user w = (Ok (render "404.html" []), w)).
Proof.
  unfold initial_upgrade. split.
  - intros c Hon Hc Hrel. rewrite Hon. cbn [negb].
    unfold bind, customer_of_realm. rewrite Hc, Hrel. reflexivity.
  - intros ->. reflexivity.
Qed.

(** C9. The billing page of a realm that has no Customer, or whose Customer
    has no billing relationship, is the redirect to the upgrade page, and
    the world is left as it was: whatever the processor would answer, it is
    not asked. *)
Theorem billing_home_redirects_to_upgrade (user : UserProfile) (w : World) :
  (customer_for (realm user) w = None
   \/ exists c, customer_for (realm user) w = Some c
                /\ has_billing_relationship c = false) ->
  billing_home user w =
  (Ok (HttpResponseRedirect (reverse "corporate.views.initial_upgrade")), w).
Proof.
  unfold billing_home, bind, customer_of_realm.
  intros [-> | (c & -> & Hrel)]; [reflexivity|].
  now rewrite Hrel.
Qed.

(** C8, on the code.  An exception of the processor call that is not a
    BillingError leaves [downgrade] and [replace_payment_source] as it
    was raised: no response is built and nothing is logged. *)
Theorem downgrade_propagates_unexpected (user : UserProfile)
    (stripe_token : string) (e : exn) (w w' : World) :
  (forall b, e <> BillingErr b) ->
  (process_downgrade user w = (Raise e, w') ->
   downgrade user w = (Raise e, w'))
  /\
  (do_replace_payment_source user stripe_token w = (Raise e, w') ->
   replace_payment_source user stripe_token w = (Raise e, w')).
Proof.
  intros Hother. unfold downgrade, replace_payment_source, try_except.
  split; intros ->; destruct e as [b| | | |];
    solve [now destruct (Hother b) | reflexivity].
Qed.

End RoutingFacts.

Lemma initial_upgrade_redirects_existing_customer_witness :
  initial_upgrade (env := Demo.standard) Demo.hamlet Demo.upgraded_world =
  (Ok (HttpResponseRedirect (reverse "corporate.views.billing_home")),
   Demo.upgraded_world)
  /\
  initial_upgrade (env := Demo.environment false None) Demo.hamlet
    Demo.discounted_world =
  (Ok (render "404.html" []), Demo.discounted_world).
Proof.
  split.
  - exact (proj1 (initial_upgrade_redirects_existing_customer
                    (env := Demo.standard) Demo.hamlet Demo.upgraded_world)
             _ eq_refl eq_refl eq_refl).
  - exact (proj2 (initial_upgrade_redirects_existing_customer
                    (env := Demo.environment false None) Demo.hamlet
                    Demo.discounted_world) eq_refl).
Defined.

(** C5 as stated fails: with billing disabled, the upgrade page of a realm
    whose Customer has a billing relationship is the 404 page, not the
    redirect. *)
Lemma initial_upgrade_billing_disabled :
  BILLING_ENABLED (Environment := Demo.environment false None) = false
  /\ (exists c, customer_for (realm Demo.hamlet) Demo.upgraded_world = Some c
                /\ has_billing_relationship c = true)
  /\ initial_upgrade (env := Demo.environment false None) Demo.hamlet
       Demo.upgraded_world =
     (Ok (render "404.html" []), Demo.upgraded_world)
  /\ initial_upgrade (env := Demo.environment false None) Demo.hamlet
       Demo.upgraded_world <>
     (Ok (HttpResponseRedirect (reverse "corporate.views.billing_home")),
      Demo.upgraded_world).
Proof.
  split; [reflexivity|]. split; [eexists; split; reflexivity|].
  split; [reflexivity | discriminate].
Qed.

Lemma billing_home_redirects_to_upgrade_witness :
  billing_home (env := Demo.standard) Demo.hamlet Demo.empty_world =
  (Ok (HttpResponseRedirect (reverse "corporate.views.initial_upgrade")),
   Demo.empty_world)
  /\
  billing_home (env := Demo.standard) Demo.hamlet Demo.discounted_world =
  (Ok (HttpResponseRedirect (reverse "corporate.views.initial_upgrade")),
   Demo.discounted_world).
Proof.
  split.
  - exact (billing_home_redirects_to_upgrade (env := Demo.standard)
             Demo.hamlet Demo.empty_world (or_introl eq_refl)).
  - exact (billing_home_redirects_to_upgrade (env := Demo.standard)
             Demo.hamlet Demo.discounted_world
             (or_intror (ex_intro _ _ (conj eq_refl eq_refl)))).
Defined.

Lemma downgrade_propagates_unexpected_witness :
  downgrade (env := Demo.failing) Demo.hamlet Demo.upgraded_world =
  (Raise Demo.unreachable, Demo.upgraded_world)
  /\
  replace_payment_source (env := Demo.failing) Demo.hamlet "tok_visa"
    Demo.upgraded_world =
  (Raise Demo.unreachable, Demo.upgraded_world).
Proof.
  assert (Hother : forall b, Demo.unreachable <> BillingErr b) by discriminate.
  split.
  - exact (proj1 (downgrade_propagates_unexpected (env := Demo.failing)
                    Demo.hamlet "tok_visa" Demo.unreachable
                    Demo.upgraded_world Demo.upgraded_world Hother) eq_refl).
  - exact (proj2 (downgrade_propagates_unexpected (env := Demo.failing)
                    Demo.hamlet "tok_visa" Demo.unreachable
                    Demo.upgraded_world Demo.upgraded_world Hother) eq_refl).
Defined.

(** * Further properties of the views *)

(** ** The validator *)

Section ValidatorMore.

Context {env : Environment}.

Lemma mem_billing_modality (billing_modality : string) :
  Str.mem billing_modality ["send_invoice"; "charge_automatically"] = true <->
  billing_modality = "send_invoice" \/ billing_modality = "charge_automatically".
Proof.
  unfold Str.mem. cbn [existsb]. rewrite !orb_true_iff, !String.eqb_eq.
  intuition discriminate.
Qed.

Lemma check_accepts_iff (billing_modality schedule : string)
    (license_management : option string) (licenses : option Z)
    (has_stripe_token : bool) (seat_count : Z) :
  check_upgrade_parameters billing_modality schedule license_management
    licenses has_stripe_token seat_count = Ok tt
  <->
  Str.mem schedule ["annual"; "monthly"] = true
  /\ Str.omem license_management ["automatic"; "manual"; "mix"] = true
  /\ exists n, licenses = Some n
     /\ ((billing_modality = "send_invoice"
          /\ Z.max seat_count MIN_INVOICED_LICENSES <= n)
         \/ (billing_modality = "charge_automatically"
             /\ has_stripe_token = true /\ seat_count <= n)).
Proof.
  split.
  - unfold check_upgrade_parameters.
    destruct (Str.mem billing_modality _) eqn:Hb; cbn [negb]; [|discriminate].
    destruct (Str.mem schedule _); cbn [negb]; [|discriminate].
    destruct (Str.omem license_management _); cbn [negb]; [|discriminate].
    apply mem_billing_modality in Hb. destruct Hb as [-> | ->]; cbn.
    + destruct licenses as [n|]; [|discriminate].
      destruct (Z.ltb_spec n (Z.max seat_count MIN_INVOICED_LICENSES));
        [discriminate|].
      intros _. repeat split. exists n. split; [reflexivity|]. left. now split.
    + destruct has_stripe_token; cbn; [|discriminate].
      destruct licenses as [n|]; [|discriminate].
      destruct (Z.ltb_spec n seat_count); [discriminate|].
      intros _. repeat split. exists n. split; [reflexivity|]. right.
      now repeat split.
  - intros (Hs & Hl & n & -> & H).
    assert (Hb : Str.mem billing_modality
                   ["send_invoice"; "charge_automatically"] = true).
    { apply mem_billing_modality. tauto. }
    rewrite (check_valid_enums _ _ _ _ _ _ Hb Hs Hl).
    unfold too_few, minimum_licenses.
    destruct H as [[-> Hn] | (-> & -> & Hn)]; cbn.
    + destruct (Z.ltb_spec n (Z.max seat_count MIN_INVOICED_LICENSES));
        [lia | reflexivity].
    + destruct (Z.ltb_spec n seat_count); [lia | reflexivity].
Qed.

(** X1. [check_upgrade_parameters] returns normally exactly for a known
    schedule and license management with licenses given and either an
    invoiced upgrade of at least [max(seat_count, MIN_INVOICED_LICENSES)]
    licenses or an automatically charged one with a payment token and at
    least [seat_count] licenses. *)
Theorem check_upgrade_parameters_accepts (billing_modality schedule : string)
    (license_management : option string) (licenses : option Z)
    (has_stripe_token : bool) (seat_count : Z) :
  check_upgrade_parameters billing_modality schedule license_management
    licenses has_stripe_token seat_count = Ok tt
  <->
  Str.mem schedule ["annual"; "monthly"] = true
  /\ Str.omem license_management ["automatic"; "manual"; "mix"] = true
  /\ exists n, licenses = Some n
     /\ ((billing_modality = "send_invoice"
          /\ Z.max seat_count MIN_INVOICED_LICENSES <= n)
         \/ (billing_modality = "charge_automatically"
             /\ has_stripe_token = true /\ seat_count <= n)).
Proof. apply check_accepts_iff. Qed.

(** X2. [check_upgrade_parameters] fails with a BillingError only, and its
    description is one of five: unknown billing_modality, unknown schedule,
    unknown license_management, autopay with no card, not enough
    licenses. *)
Theorem check_upgrade_parameters_errors (billing_modality schedule : string)
    (license_management : option string) (licenses : option Z)
    (has_stripe_token : bool) (seat_count : Z) :
  check_upgrade_parameters billing_modality schedule license_management
    licenses has_stripe_token seat_count = Ok tt
  \/ exists b,
       check_upgrade_parameters billing_modality schedule license_management
         licenses has_stripe_token seat_count = Raise (BillingErr b)
       /\ In (description b)
            [ "unknown billing_modality"; "unknown schedule";
              "unknown license_management"; "autopay with no card";
              "not enough licenses" ].
Proof.
  unfold check_upgrade_parameters.
  destruct (Str.mem billing_modality _); cbn [negb];
    [|right; eexists; split; [reflexivity | cbn; tauto]].
  destruct (Str.mem schedule _); cbn [negb];
    [|right; eexists; split; [reflexivity | cbn; tauto]].
  destruct (Str.omem license_management _); cbn [negb];
    [|right; eexists; split; [reflexivity | cbn; tauto]].
  destruct ((billing_modality =? "charge_automatically")%string
            && negb has_stripe_token);
    [right; eexists; split; [reflexivity | cbn; tauto]|].
  destruct (match licenses with Some n => _ | None => true end);
    [right; eexists; split; [reflexivity | cbn; tauto] | now left].
Qed.

(** X3. Asking for more licenses never turns an accepted upgrade into a
    refused one. *)
Theorem check_upgrade_parameters_more_licenses (billing_modality schedule : string)
    (license_management : option string) (n n' : Z)
    (has_stripe_token : bool) (seat_count : Z) :
  n <= n' ->
  check_upgrade_parameters billing_modality schedule license_management
    (Some n) has_stripe_token seat_count = Ok tt ->
  check_upgrade_parameters billing_modality schedule license_management
    (Some n') has_stripe_token seat_count = Ok tt.
Proof.
  intros Hle. unfold check_upgrade_parameters.
  destruct (Str.mem billing_modality _); cbn [negb]; [|discriminate].
  destruct (Str.mem schedule _); cbn [negb]; [|discriminate].
  destruct (Str.omem license_management _); cbn [negb]; [|discriminate].
  destruct ((billing_modality =? "charge_automatically")%string
            && negb has_stripe_token); [discriminate|].
  cbv zeta.
  destruct (Z.ltb_spec n (if (billing_modality =? "send_invoice")%string
                          then Z.max seat_count MIN_INVOICED_LICENSES
                          else seat_count)); [discriminate|].
  intros _.
  destruct (Z.ltb_spec n' (if (billing_modality =? "send_invoice")%string
                           then Z.max seat_count MIN_INVOICED_LICENSES
                           else seat_count)); [lia | reflexivity].
Qed.

End ValidatorMore.

Lemma check_upgrade_parameters_more_licenses_witness :
  25 <= 40
  /\ check_upgrade_parameters (env := Demo.standard) "send_invoice" "annual"
       (Some "manual") (Some 25) false 12 = Ok tt
  /\ check_upgrade_parameters (env := Demo.standard) "send_invoice" "annual"
       (Some "manual") (Some 40) false 12 = Ok tt.
Proof.
  split; [lia|]. split; [reflexivity|].
  apply (check_upgrade_parameters_more_licenses (env := Demo.standard)
           "send_invoice" "annual" (Some "manual") 25 40 false 12);
    [lia | reflexivity].
Defined.

(** ** The upgrade view, further *)

Section UpgradeMore.

Context {env : Environment}.

Lemma schedule_code (schedule : string) :
  Str.mem schedule ["annual"; "monthly"] = true ->
  (schedule = "annual"
   /\ dict_getitem [("annual", ANNUAL); ("monthly", MONTHLY)] schedule = Ok ANNUAL)
  \/ (schedule = "monthly"
      /\ dict_getitem [("annual", ANNUAL); ("monthly", MONTHLY)] schedule
         = Ok MONTHLY).
Proof.
  unfold Str.mem. cbn [existsb]. rewrite !orb_true_iff, !String.eqb_eq.
  intros [-> | [-> | Hf]]; [left | right | discriminate Hf]; split; reflexivity.
Qed.

(** X4. The body of the upgrade view either fails with the world as it was,
    or is one call of [process_initial_upgrade], made for a verified seat
    count with at least that many licenses, with the stripe token of the
    request and with ANNUAL or MONTHLY as the schedule; an invoiced upgrade
    is annual and has at least MIN_INVOICED_LICENSES licenses, an
    automatically charged one carries a token. *)
Theorem upgrade_body_calls_processor_validated (user : UserProfile)
    (billing_modality schedule : string) (license_management : option string)
    (licenses : option Z) (stripe_token : option string)
    (signed_seat_count salt : string) (w : World) :
  (exists e,
     upgrade_body check_upgrade_parameters user billing_modality schedule
       license_management licenses stripe_token signed_seat_count salt w
     = (Raise e, w))
  \/
  (exists seat_count n code,
     unsign_seat_count signed_seat_count salt = Ok seat_count
     /\ seat_count <= n
     /\ (code = ANNUAL \/ code = MONTHLY)
     /\ (billing_modality = "send_invoice"
         /\ code = ANNUAL /\ MIN_INVOICED_LICENSES <= n
         \/ billing_modality = "charge_automatically"
            /\ stripe_token <> None)
     /\ upgrade_body check_upgrade_parameters user billing_modality schedule
          license_management licenses stripe_token signed_seat_count salt w
        = process_initial_upgrade user (Some n) code stripe_token w).
Proof.
  unfold upgrade_body, bind, lift.
  destruct (unsign_seat_count signed_seat_count salt) as [seat|e];
    [|left; now exists e].
  destruct (check_upgrade_parameters _ _ _ _ _ _) as [[]|e] eqn:Hcheck;
    [|left; now exists e].
  right. apply check_accepts_iff in Hcheck as (Hs & _ & n & Hn & Hcase).
  rewrite Hn. exists seat, n.
  destruct Hcase as [[-> Hmin] | (-> & Htok & Hmin)].
  - cbn. exists ANNUAL. repeat split; try lia; try tauto.
    left. repeat split; lia.
  - cbn in Hs |- *.
    apply schedule_code in Hs as [[_ ->] | [_ ->]];
      [exists ANNUAL | exists MONTHLY];
      (repeat split; trivial; try tauto;
       right; split; trivial; destruct stripe_token; [discriminate|discriminate]).
Qed.

(** X5. An invoiced upgrade is answered as if it asked for the annual
    schedule and manual license management, and an automatically charged
    upgrade with automatic license management is answered the same
    whatever licenses it asks for. *)
Theorem upgrade_ignores_overridden_parameters (user : UserProfile)
    (schedule : string) (license_management : option string)
    (licenses licenses' : option Z) (stripe_token : option string)
    (signed_seat_count salt : string) (w : World) :
  upgrade user "send_invoice" schedule license_management licenses
    stripe_token signed_seat_count salt w
  = upgrade user "send_invoice" "annual" (Some "manual") licenses
      stripe_token signed_seat_count salt w
  /\
  upgrade user "charge_automatically" schedule (Some "automatic") licenses
    stripe_token signed_seat_count salt w
  = upgrade user "charge_automatically" schedule (Some "automatic") licenses'
      stripe_token signed_seat_count salt w.
Proof. split; reflexivity. Qed.

(** X6. A request refused by the seat-count verification or by the
    validator is answered with the message and description of that
    BillingError, and the world is as it was: nothing is logged and the
    processor is not asked.  A signed value that verifies to something
    [int] refuses is logged and answered as an uncaught exception. *)
Theorem upgrade_refused_before_processor (user : UserProfile)
    (billing_modality schedule : string) (license_management : option string)
    (licenses : option Z) (stripe_token : option string)
    (signed_seat_count salt : string) (w : World) :
  let view := upgrade user billing_modality schedule license_management
                licenses stripe_token signed_seat_count salt in
  (forall b,
     unsign_seat_count signed_seat_count salt = Raise (BillingErr b) ->
     view w = (Ok (json_error (message b)
                     [("error_description", description b)]), w))
  /\
  (forall seat_count b,
     unsign_seat_count signed_seat_count salt = Ok seat_count ->
     check_upgrade_parameters billing_modality
       (if (billing_modality =? "send_invoice")%string then "annual"
        else schedule)
       (if (billing_modality =? "send_invoice")%string then Some "manual"
        else license_management)
       (if (billing_modality =? "charge_automatically")%string
           && Str.oeqb license_management "automatic"
        then Some seat_count else licenses)
       (match stripe_token with Some _ => true | None => false end)
       seat_count = Raise (BillingErr b) ->
     view w = (Ok (json_error (message b)
                     [("error_description", description b)]), w))
  /\
  (forall literal,
     unsign_seat_count signed_seat_count salt = Raise (ValueError literal) ->
     view w = (Ok (json_error CONTACT_SUPPORT
                     [("error_description", "uncaught exception during upgrade")]),
               log_record (LogException "Uncaught exception in billing: %s"
                                        (ValueError literal)) w)).
Proof.
  cbv zeta. unfold upgrade, upgrade_with, try_except, upgrade_body, bind, lift.
  split; [|split].
  - intros b ->. reflexivity.
  - intros seat b -> ->. reflexivity.
  - intros literal ->. reflexivity.
Qed.

(** X7. An automatically charged upgrade that leaves out license_management
    is refused as unknown license_management, when its schedule is known
    and its seat count verifies. *)
Theorem upgrade_missing_license_management (user : UserProfile)
    (schedule : string) (licenses : option Z) (stripe_token : option string)
    (signed_seat_count salt : string) (seat_count : Z) (w : World) :
  Str.mem schedule ["annual"; "monthly"] = true ->
  unsign_seat_count signed_seat_count salt = Ok seat_count ->
  upgrade user "charge_automatically" schedule None licenses stripe_token
    signed_seat_count salt w
  = (Ok (json_error default_message
           [("error_description", "unknown license_management")]), w).
Proof.
  intros Hs Hseat.
  unfold upgrade, upgrade_with, try_except, upgrade_body, bind, lift.
  rewrite Hseat. unfold check_upgrade_parameters, Str.mem in Hs |- *.
  cbn in Hs |- *. rewrite Hs. reflexivity.
Qed.

(** X8. The upgrade view answers success or an error with the single data
    field error_description, and it answers success only when its body
    returned. *)
Theorem upgrade_answers_json (user : UserProfile)
    (billing_modality schedule : string) (license_management : option string)
    (licenses : option Z) (stripe_token : option string)
    (signed_seat_count salt : string) (w : World) :
  exists response w',
    upgrade user billing_modality schedule license_management licenses
      stripe_token signed_seat_count salt w = (Ok response, w')
    /\ (response = json_success
        /\ upgrade_body check_upgrade_parameters user billing_modality
             schedule license_management licenses stripe_token
             signed_seat_count salt w = (Ok tt, w')
        \/ exists msg d, response = json_error msg [("error_description", d)]).
Proof.
  unfold upgrade, upgrade_with, try_except.
  destruct (upgrade_body _ _ _ _ _ _ _ _ _ w) as [[[]|e] w1].
  - eexists _, _. split; [reflexivity|]. left. now split.
  - destruct e; eexists _, _; (split; [reflexivity|]); right;
      eexists _, _; reflexivity.
Qed.

End UpgradeMore.

Lemma upgrade_refused_before_processor_witness :
  upgrade (env := Demo.standard) Demo.hamlet "charge_automatically" "monthly"
    (Some "manual") (Some 12) (Some "tok_visa") "12:forged" "c2FsdA"
    Demo.upgraded_world
  = (Ok (json_error "Something went wrong. Please contact zulip-admin@example.com."
           [("error_description", "tampered seat count")]),
     Demo.upgraded_world)
  /\
  upgrade (env := Demo.standard) Demo.hamlet "send_invoice" "monthly" None
    (Some 5) None "12:48650" "c2FsdA" Demo.empty_world
  = (Ok (json_error "You must invoice for at least 25 users."
           [("error_description", "not enough licenses")]),
     Demo.empty_world)
  /\
  upgrade (env := Demo.standard) Demo.hamlet "send_invoice" "monthly" None
    (Some 30) None (signed_value (env := Demo.standard) "c2FsdA" "twelve")
    "c2FsdA" Demo.empty_world
  = (Ok (json_error "Something went wrong. Please contact zulip-admin@example.com."
           [("error_description", "uncaught exception during upgrade")]),
     {| customers := []; customer_plans := []; plans := [];
        billing_log := [LogException "Uncaught exception in billing: %s"
                                     (ValueError "twelve")] |}).
Proof.
  split; [|split].
  - exact (proj1 (upgrade_refused_before_processor (env := Demo.standard)
             Demo.hamlet "charge_automatically" "monthly" (Some "manual")
             (Some 12) (Some "tok_visa") "12:forged" "c2FsdA"
             Demo.upgraded_world)
             {| description := "tampered seat count";
                message := default_message (Environment := Demo.standard) |}
             eq_refl).
  - exact (proj1 (proj2 (upgrade_refused_before_processor (env := Demo.standard)
             Demo.hamlet "send_invoice" "monthly" None (Some 5) None
             "12:48650" "c2FsdA" Demo.empty_world))
             12
             {| description := "not enough licenses";
                message := "You must invoice for at least 25 users." |}
             eq_refl eq_refl).
  - exact (proj2 (proj2 (upgrade_refused_before_processor (env := Demo.standard)
             Demo.hamlet "send_invoice" "monthly" None (Some 30) None
             (signed_value (env := Demo.standard) "c2FsdA" "twelve") "c2FsdA"
             Demo.empty_world))
             "twelve" eq_refl).
Defined.

Lemma upgrade_missing_license_management_witness :
  Str.mem "monthly" ["annual"; "monthly"] = true
  /\ unsign_seat_count (env := Demo.standard) "12:48650" "c2FsdA" = Ok 12
  /\ upgrade (env := Demo.standard) Demo.hamlet "charge_automatically"
       "monthly" None (Some 12) (Some "tok_visa") "12:48650" "c2FsdA"
       Demo.empty_world
     = (Ok (json_error "Something went wrong. Please contact zulip-admin@example.com."
              [("error_description", "unknown license_management")]),
        Demo.empty_world).
Proof.
  split; [reflexivity|]. split; [reflexivity|].
  exact (upgrade_missing_license_management (env := Demo.standard) Demo.hamlet
           "monthly" (Some 12) (Some "tok_visa") "12:48650" "c2FsdA" 12
           Demo.empty_world eq_refl eq_refl).
Defined.

(** ** The billing page, further *)

Section BillingHomeMore.

Context {env : Environment}.

(** The current subscription is invoiced. *)
Definition invoiced (c : StripeCustomer) : bool :=
  match extract_current_subscription c with
  | Some sub => (billing sub =? "send_invoice")%string
  | None => false
  end.

(** The user may see the billing details. *)
Definition has_admin_access (user : UserProfile) : bool :=
  is_realm_admin user || is_billing_admin user.

(** The billing page from the point where the processor has answered. *)
Lemma billing_home_admin (user : UserProfile) (c : Customer)
    (sc : StripeCustomer) (w w1 : World) :
  customer_for (realm user) w = Some c ->
  has_billing_relationship c = true ->
  has_admin_access user = true ->
  stripe_get_customer (stripe_customer_id c) w = (Ok sc, w1) ->
  forall response w',
  billing_home user w = (response, w') ->
  match response with
  | Raise _ => True
  | Ok (render template context) =>
      template = "corporate/billing.html"
      /\ dict_get context "admin_access" = Some (VBool true)
      /\ dict_get context "account_charges" =
         (if account_balance sc >? 0 then Some (VMoney (account_balance sc))
          else None)
      /\ dict_get context "account_credits" =
         (if account_balance sc <? 0 then Some (VMoney (- account_balance sc))
          else None)
      /\ dict_get context "payment_method" =
         Some (VStr (payment_method_string sc))
      /\ dict_get context "billed_by_invoice" = Some (VBool (invoiced sc))
      /\ dict_get context "stripe_email" = Some (VStr (stripe_email sc))
      /\ (extract_current_subscription sc = None ->
          w' = w1
          /\ dict_get context "plan_name" = Some (VStr "Zulip Free")
          /\ dict_get context "licenses" = Some (VInt 0)
          /\ dict_get context "renewal_date" = Some (VStr "")
          /\ dict_get context "renewal_amount" = Some (VMoney 0))
      /\ (forall sub, extract_current_subscription sc = Some sub ->
          dict_get context "licenses" = Some (VInt (quantity sub))
          /\ dict_get context "renewal_date" =
             Some (VDate (current_period_end sub)))
  | Ok _ => False
  end.
Proof.
  intros Hc Hrel Hadmin Hstripe response w'.
  unfold billing_home, bind, customer_of_realm. rewrite Hc, Hrel. cbn [negb].
  unfold has_admin_access in Hadmin.
  replace (negb (is_realm_admin user) && negb (is_billing_admin user))
    with false by (destruct (is_realm_admin user), (is_billing_admin user);
                   trivial; discriminate).
  rewrite Hstripe. unfold invoiced.
  destruct (extract_current_subscription sc) as [sub|].
  - destruct (plan_by_stripe_id (subscription_plan_id sub) w1) as [[p|e] w2];
      [|intros [= <- _]; exact I].
    unfold lift.
    destruct (dict_getitem PLAN_NAMES (nickname p)) as [name|e];
      cbv beta iota; [|intros [= <- _]; exact I].
    destruct (upcoming_invoice_total (stripe_customer_id c) w2) as [[amount|e] w3];
      cbv beta iota; [|intros [= <- _]; exact I].
    unfold ret. intros [= <- _].
    destruct (account_balance sc >? 0), (account_balance sc <? 0),
      (billing sub =? "send_invoice")%string;
      (repeat match goal with |- _ /\ _ => split end; try reflexivity;
       [intros [=] | intros sub' [= <-]; split; reflexivity]).
  - unfold ret. intros [= <- <-].
    destruct (account_balance sc >? 0), (account_balance sc <? 0);
      (repeat match goal with |- _ /\ _ => split end; try reflexivity;
       [intros _; repeat split | intros sub' [=]]).
Qed.

End BillingHomeMore.

Section BillingHomePages.

Context {env : Environment}.

(** X9. A user who administers neither the realm nor billing gets the
    billing page with admin_access false and nothing else, and the world is
    as it was: the processor is not asked about the customer. *)
Theorem billing_home_hides_details_from_members (user : UserProfile)
    (c : Customer) (w : World) :
  customer_for (realm user) w = Some c ->
  has_billing_relationship c = true ->
  is_realm_admin user = false ->
  is_billing_admin user = false ->
  billing_home user w =
  (Ok (render "corporate/billing.html" [("admin_access", VBool false)]), w).
Proof.
  intros Hc Hrel Hr Hb. unfold billing_home, bind, customer_of_realm.
  now rewrite Hc, Hrel, Hr, Hb.
Qed.

(** X10. On the billing page of an administrator, account_charges is
    present exactly when the balance is positive and then shows the
    balance, account_credits is present exactly when the balance is
    negative and then shows its opposite; they are never both present. *)
Theorem billing_home_balance_lines (user : UserProfile) (c : Customer)
    (sc : StripeCustomer) (w w1 w' : World) (template : string)
    (context : list (string * value)) :
  customer_for (realm user) w = Some c ->
  has_billing_relationship c = true ->
  has_admin_access user = true ->
  stripe_get_customer (stripe_customer_id c) w = (Ok sc, w1) ->
  billing_home user w = (Ok (render template context), w') ->
  dict_get context "account_charges" =
    (if account_balance sc >? 0 then Some (VMoney (account_balance sc))
     else None)
  /\ dict_get context "account_credits" =
    (if account_balance sc <? 0 then Some (VMoney (- account_balance sc))
     else None)
  /\ (dict_get context "account_charges" = None
      \/ dict_get context "account_credits" = None).
Proof.
  intros Hc Hrel Hadmin Hstripe Hpage.
  pose proof (billing_home_admin user c sc w w1 Hc Hrel Hadmin Hstripe _ _ Hpage)
    as (_ & _ & Hcharges & Hcredits & _).
  split; [exact Hcharges|]. split; [exact Hcredits|].
  rewrite Hcharges, Hcredits.
  destruct (Z.gtb_spec (account_balance sc) 0); [|now left].
  destruct (Z.ltb_spec (account_balance sc) 0); [lia | now right].
Qed.

(** X11. On the billing page of an administrator, billed_by_invoice says
    whether the current subscription is invoiced, and when it is true the
    payment method shown is the invoice line. *)
Theorem billing_home_invoice_flag (user : UserProfile) (c : Customer)
    (sc : StripeCustomer) (w w1 w' : World) (template : string)
    (context : list (string * value)) :
  customer_for (realm user) w = Some c ->
  has_billing_relationship c = true ->
  has_admin_access user = true ->
  stripe_get_customer (stripe_customer_id c) w = (Ok sc, w1) ->
  billing_home user w = (Ok (render template context), w') ->
  dict_get context "billed_by_invoice" = Some (VBool (invoiced sc))
  /\ (invoiced sc = true ->
      dict_get context "payment_method" =
      Some (VStr (ugettext "Billed by invoice"))).
Proof.
  intros Hc Hrel Hadmin Hstripe Hpage.
  pose proof (billing_home_admin user c sc w w1 Hc Hrel Hadmin Hstripe _ _ Hpage)
    as (_ & _ & _ & _ & Hmethod & Hflag & _).
  split; [exact Hflag|]. intros Hinv. rewrite Hmethod.
  unfold payment_method_string. unfold invoiced in Hinv. now rewrite Hinv.
Qed.

(** X12. For a customer without a current subscription, the billing page of
    an administrator is rendered from the processor's customer alone: the
    plan is Zulip Free with 0 licenses, an empty renewal date and a renewal
    amount of 0, and neither the Plan table nor the upcoming invoice is
    read. *)
Theorem billing_home_without_subscription (user : UserProfile) (c : Customer)
    (sc : StripeCustomer) (w w1 : World) :
  customer_for (realm user) w = Some c ->
  has_billing_relationship c = true ->
  has_admin_access user = true ->
  stripe_get_customer (stripe_customer_id c) w = (Ok sc, w1) ->
  extract_current_subscription sc = None ->
  exists context,
    billing_home user w = (Ok (render "corporate/billing.html" context), w1)
    /\ dict_get context "plan_name" = Some (VStr "Zulip Free")
    /\ dict_get context "licenses" = Some (VInt 0)
    /\ dict_get context "renewal_date" = Some (VStr "")
    /\ dict_get context "renewal_amount" = Some (VMoney 0)
    /\ dict_get context "billed_by_invoice" = Some (VBool false).
Proof.
  intros Hc Hrel Hadmin Hstripe Hsub.
  destruct (billing_home user w) as [response w'] eqn:Hpage.
  assert (Hok : exists context,
             response = Ok (render "corporate/billing.html" context)).
  { revert Hpage. unfold billing_home, bind, customer_of_realm.
    rewrite Hc, Hrel. cbn [negb]. unfold has_admin_access in Hadmin.
    replace (negb (is_realm_admin user) && negb (is_billing_admin user))
      with false by (destruct (is_realm_admin user), (is_billing_admin user);
                     trivial; discriminate).
    rewrite Hstripe, Hsub. unfold ret. intros [= <- _]. eexists. reflexivity. }
  destruct Hok as [context ->]. exists context.
  pose proof (billing_home_admin user c sc w w1 Hc Hrel Hadmin Hstripe _ _ Hpage)
    as (_ & _ & _ & _ & _ & Hflag & _ & Hfree & _).
  destruct (Hfree Hsub) as (-> & Hname & Hlic & Hdate & Hamount).
  repeat split; trivial.
  rewrite Hflag. unfold invoiced. now rewrite Hsub.
Qed.

(** X13. For a customer with a current subscription, the billing page of an
    administrator fails with Plan.DoesNotExist when no Plan has the
    subscription's plan id, and with KeyError when the Plan's nickname is
    neither CLOUD_ANNUAL nor CLOUD_MONTHLY; in both cases before the
    upcoming invoice is asked for. *)
Theorem billing_home_unknown_plan (user : UserProfile) (c : Customer)
    (sc : StripeCustomer) (sub : Subscription) (w w1 : World) :
  customer_for (realm user) w = Some c ->
  has_billing_relationship c = true ->
  has_admin_access user = true ->
  stripe_get_customer (stripe_customer_id c) w = (Ok sc, w1) ->
  extract_current_subscription sc = Some sub ->
  ((forall p, In p (plans w1) -> stripe_plan_id p <> subscription_plan_id sub) ->
   billing_home user w = (Raise (OtherException "Plan.DoesNotExist" ""), w1))
  /\
  (forall p,
   plan_by_stripe_id (subscription_plan_id sub) w1 = (Ok p, w1) ->
   nickname p <> CLOUD_ANNUAL -> nickname p <> CLOUD_MONTHLY ->
   billing_home user w = (Raise (KeyError (nickname p)), w1)).
Proof.
  intros Hc Hrel Hadmin Hstripe Hsub.
  unfold billing_home, bind, customer_of_realm. rewrite Hc, Hrel. cbn [negb].
  unfold has_admin_access in Hadmin.
  replace (negb (is_realm_admin user) && negb (is_billing_admin user))
    with false by (destruct (is_realm_admin user), (is_billing_admin user);
                   trivial; discriminate).
  rewrite Hstripe, Hsub. split.
  - intros Hnone. unfold plan_by_stripe_id, get.
    replace (filter _ (plans w1)) with (@nil Plan); [reflexivity|].
    symmetry. induction (plans w1) as [|p l IH]; [reflexivity|].
    cbn [filter].
    destruct (String.eqb_spec (stripe_plan_id p) (subscription_plan_id sub))
      as [E|_].
    + destruct (Hnone p (or_introl eq_refl) E).
    + apply IH. intros q Hq. apply Hnone. now right.
  - intros p -> Ha Hm. unfold lift, dict_getitem, PLAN_NAMES. cbn [dict_get].
    apply String.eqb_neq in Ha, Hm.
    rewrite String.eqb_sym in Ha. rewrite String.eqb_sym in Hm.
    now rewrite Ha, Hm.
Qed.

End BillingHomePages.

(** The context of a rendered page. *)
Definition context_of (answer : result HttpResponse * World)
  : list (string * value) :=
  match fst answer with
  | Ok (render _ context) => context
  | _ => []
  end.

Lemma billing_home_hides_details_from_members_witness :
  billing_home (env := Demo.standard) Scenario.cordelia Demo.upgraded_world =
  (Ok (render "corporate/billing.html" [("admin_access", VBool false)]),
   Demo.upgraded_world).
Proof.
  exact (billing_home_hides_details_from_members (env := Demo.standard)
           Scenario.cordelia _ Demo.upgraded_world
           eq_refl eq_refl eq_refl eq_refl).
Defined.

Lemma billing_home_balance_lines_witness :
  let page := context_of (billing_home (env := Scenario.with_customer Scenario.owing)
                            Demo.hamlet Demo.upgraded_world) in
  dict_get page "account_charges" = Some (VMoney 1250)
  /\ dict_get page "account_credits" = None
  /\ (dict_get page "account_charges" = None
      \/ dict_get page "account_credits" = None).
Proof.
  exact (billing_home_balance_lines (env := Scenario.with_customer Scenario.owing)
           Demo.hamlet _ Scenario.owing Demo.upgraded_world _ _ _ _
           eq_refl eq_refl eq_refl eq_refl eq_refl).
Defined.

Lemma billing_home_invoice_flag_witness :
  let page := context_of (billing_home (env := Scenario.with_customer Scenario.owing)
                            Demo.hamlet Demo.upgraded_world) in
  dict_get page "billed_by_invoice" = Some (VBool true)
  /\ dict_get page "payment_method" = Some (VStr "Billed by invoice").
Proof.
  pose proof (billing_home_invoice_flag (env := Scenario.with_customer Scenario.owing)
                Demo.hamlet _ Scenario.owing Demo.upgraded_world _ _ _ _
                eq_refl eq_refl eq_refl eq_refl eq_refl) as [Hflag Hline].
  split; [exact Hflag | exact (Hline eq_refl)].
Defined.

Lemma billing_home_without_subscription_witness :
  let page := context_of (billing_home (env := Scenario.with_customer Scenario.canceled)
                            Demo.hamlet Demo.upgraded_world) in
  dict_get page "plan_name" = Some (VStr "Zulip Free")
  /\ dict_get page "licenses" = Some (VInt 0)
  /\ dict_get page "account_credits" = Some (VMoney 300)
  /\ dict_get page "payment_method" =
     Some (VStr "Unknown payment method. Please contact zulip-admin@example.com.").
Proof.
  destruct (billing_home_without_subscription
              (env := Scenario.with_customer Scenario.canceled)
              Demo.hamlet _ Scenario.canceled Demo.upgraded_world _
              eq_refl eq_refl eq_refl eq_refl eq_refl)
    as (context & Hpage & Hname & Hlicenses & _).
  cbv zeta. rewrite Hpage. unfold context_of. cbn [fst].
  split; [exact Hname|]. split; [exact Hlicenses|].
  injection Hpage as <-. split; reflexivity.
Defined.

Lemma billing_home_unknown_plan_witness :
  billing_home (env := Demo.standard) Demo.hamlet Scenario.without_plans
  = (Raise (OtherException "Plan.DoesNotExist" ""), Scenario.without_plans)
  /\
  billing_home (env := Demo.standard) Demo.hamlet Scenario.legacy_plan
  = (Raise (KeyError "legacy"), Scenario.legacy_plan).
Proof.
  split.
  - refine (proj1 (billing_home_unknown_plan (env := Demo.standard) Demo.hamlet
                     _ _ (Demo.subscription "charge_automatically")
                     Scenario.without_plans _
                     eq_refl eq_refl eq_refl eq_refl eq_refl) _).
    intros p [].
  - refine (proj2 (billing_home_unknown_plan (env := Demo.standard) Demo.hamlet
                     _ _ (Demo.subscription "charge_automatically")
                     Scenario.legacy_plan _
                     eq_refl eq_refl eq_refl eq_refl eq_refl)
              {| stripe_plan_id := "plan_annual"; nickname := "legacy" |}
              eq_refl _ _); discriminate.
Defined.

(** ** Downgrade and payment-source replacement, further *)

Section ProcessorViews.

Context {env : Environment}.

Lemma try_billing_error_answers (body : M unit) (w w' : World)
    (response : HttpResponse) :
  try_except body
    [ except_BillingError (fun e =>
        ret (json_error (message e) [("error_description", description e)])) ]
    (fun _ => ret json_success) w = (Ok response, w')
  <->
  (body w = (Ok tt, w') /\ response = json_success)
  \/ (exists b, body w = (Raise (BillingErr b), w')
                /\ response = json_error (message b)
                                [("error_description", description b)]).
Proof.
  unfold try_except. destruct (body w) as [[[]|e] w1]; cbn.
  - unfold ret. split.
    + intros [= <- <-]. now left.
    + intros [[[= <-] ->] | (b & [=] & _)]. reflexivity.
  - destruct e as [b| | | |]; cbn; unfold ret; split;
      try (intros [=]; fail);
      try (intros [[[=] _] | (b' & [=] & _)]; fail).
    + intros [= <- <-]. right. now exists b.
    + intros [[[=] _] | (b' & [= <- <-] & ->)]. reflexivity.
Qed.

(** X14. [downgrade] and [replace_payment_source] return a response in two
    cases only: the success response when the processor call returned, and
    the error response with the message and description of the
    BillingError when it raised one; the world is as the call left it. *)
Theorem processor_views_answer (user : UserProfile) (stripe_token : string)
    (w w' : World) (response : HttpResponse) :
  (downgrade user w = (Ok response, w')
   <->
   (process_downgrade user w = (Ok tt, w') /\ response = json_success)
   \/ (exists b, process_downgrade user w = (Raise (BillingErr b), w')
                 /\ response = json_error (message b)
                                 [("error_description", description b)]))
  /\
  (replace_payment_source user stripe_token w = (Ok response, w')
   <->
   (do_replace_payment_source user stripe_token w = (Ok tt, w')
    /\ response = json_success)
   \/ (exists b, do_replace_payment_source user stripe_token w
                 = (Raise (BillingErr b), w')
                 /\ response = json_error (message b)
                                 [("error_description", description b)])).
Proof.
  split; apply try_billing_error_answers.
Qed.

End ProcessorViews.

(** ** The upgrade page, further *)

Section UpgradePage.

Context {env : Environment}.

(** The upgrade page, when it is rendered. *)
Lemma initial_upgrade_page (user : UserProfile) (w w' : World)
    (context : list (string * value)) :
  initial_upgrade user w = (Ok (render "corporate/upgrade.html" context), w') ->
  exists seat_count salt,
    dict_get context "seat_count" = Some (VInt seat_count)
    /\ dict_get context "signed_seat_count" =
       Some (VStr (signed_value salt (py_str seat_count)))
    /\ dict_get context "salt" = Some (VStr salt)
    /\ dict_get context "min_invoiced_licenses" =
       Some (VInt (Z.max seat_count MIN_INVOICED_LICENSES))
    /\ dict_get context "email" = Some (VStr (email user)).
Proof.
  unfold initial_upgrade.
  destruct BILLING_ENABLED; cbn [negb]; [|discriminate].
  unfold bind, customer_of_realm.
  destruct (match customer_for (realm user) w with
            | Some c => has_billing_relationship c
            | None => false
            end); [discriminate|].
  destruct (get_seat_count (realm user) w) as [[seat|e] w1]; [|discriminate].
  unfold sign_string, bind.
  destruct (generate_random_token w1) as [[salt|e] w2]; [|discriminate].
  unfold ret. cbv beta iota. intros [= <- _].
  exists seat, salt. repeat split; reflexivity.
Qed.

(** X15. The minimum that the upgrade page advertises for invoicing is the
    threshold of the validator for the seat count of the same page: an
    invoiced upgrade for exactly that many licenses passes, one for fewer
    does not. *)
Theorem initial_upgrade_advertises_validator_minimum (user : UserProfile)
    (w w' : World) (context : list (string * value)) :
  initial_upgrade user w = (Ok (render "corporate/upgrade.html" context), w') ->
  exists seat_count minimum,
    dict_get context "seat_count" = Some (VInt seat_count)
    /\ dict_get context "min_invoiced_licenses" = Some (VInt minimum)
    /\ (forall has_stripe_token,
          check_upgrade_parameters "send_invoice" "annual" (Some "manual")
            (Some minimum) has_stripe_token seat_count = Ok tt)
    /\ (forall n has_stripe_token, n < minimum ->
          check_upgrade_parameters "send_invoice" "annual" (Some "manual")
            (Some n) has_stripe_token seat_count <> Ok tt).
Proof.
  intros Hpage.
  destruct (initial_upgrade_page _ _ _ _ Hpage)
    as (seat & salt & Hseat & _ & _ & Hmin & _).
  exists seat, (Z.max seat MIN_INVOICED_LICENSES).
  split; [exact Hseat|]. split; [exact Hmin|]. split.
  - intros tok. apply check_accepts_iff. repeat split.
    eexists. split; [reflexivity|]. left. split; [reflexivity | lia].
  - intros n tok Hn Hok. apply check_accepts_iff in Hok
      as (_ & _ & n' & [= <-] & [[_ Hle] | [[=] _]]). lia.
Qed.

(** X16. What the upgrade page hands out is accepted when it is posted
    back: the signed seat count and the salt of the page verify to its
    seat count, and an automatically charged upgrade with automatic license
    management and a payment token, posted with them, is one call of
    [process_initial_upgrade] for exactly that many licenses on the
    schedule asked for. *)
Theorem upgrade_accepts_issued_seat_count (user : UserProfile)
    (w w' : World) (context : list (string * value)) :
  urlsafe_signature ->
  initial_upgrade user w = (Ok (render "corporate/upgrade.html" context), w') ->
  exists seat_count signed_seat_count salt,
    dict_get context "seat_count" = Some (VInt seat_count)
    /\ dict_get context "signed_seat_count" = Some (VStr signed_seat_count)
    /\ dict_get context "salt" = Some (VStr salt)
    /\ unsign_seat_count signed_seat_count salt = Ok seat_count
    /\ (forall payer licenses stripe_token world,
          upgrade_body check_upgrade_parameters payer "charge_automatically"
            "monthly" (Some "automatic") licenses (Some stripe_token)
            signed_seat_count salt world
          = process_initial_upgrade payer (Some seat_count) MONTHLY
              (Some stripe_token) world
          /\
          upgrade_body check_upgrade_parameters payer "charge_automatically"
            "annual" (Some "automatic") licenses (Some stripe_token)
            signed_seat_count salt world
          = process_initial_upgrade payer (Some seat_count) ANNUAL
              (Some stripe_token) world).
Proof.
  intros Hsafe Hpage.
  destruct (initial_upgrade_page _ _ _ _ Hpage)
    as (seat & salt & Hseat & Hsigned & Hsalt & _).
  exists seat, (signed_value salt (py_str seat)), salt.
  assert (Hverify : unsign_seat_count (signed_value salt (py_str seat)) salt
                    = Ok seat).
  { rewrite unsign_seat_count_signed by apply Hsafe.
    apply StrFacts.py_int_py_str. }
  repeat split; trivial;
    unfold upgrade_body, bind, lift; rewrite Hverify; cbn;
    unfold check_upgrade_parameters; cbn; rewrite Z.ltb_irrefl; reflexivity.
Qed.

End UpgradePage.

Lemma initial_upgrade_advertises_validator_minimum_witness :
  let page := context_of (initial_upgrade (env := Demo.standard) Demo.hamlet
                            Demo.discounted_world) in
  dict_get page "seat_count" = Some (VInt 12)
  /\ dict_get page "min_invoiced_licenses" = Some (VInt 25)
  /\ check_upgrade_parameters (env := Demo.standard) "send_invoice" "annual"
       (Some "manual") (Some 25) false 12 = Ok tt
  /\ check_upgrade_parameters (env := Demo.standard) "send_invoice" "annual"
       (Some "manual") (Some 24) false 12 <> Ok tt.
Proof.
  destruct (initial_upgrade_advertises_validator_minimum (env := Demo.standard)
              Demo.hamlet Demo.discounted_world _ _ eq_refl)
    as (seat & minimum & Hseat & Hmin & Hpass & Hfail).
  injection Hseat as <-. injection Hmin as <-.
  split; [reflexivity|]. split; [reflexivity|].
  split; [exact (Hpass false) | apply (Hfail 24 false); lia].
Defined.

Lemma upgrade_accepts_issued_seat_count_witness :
  let page := context_of (initial_upgrade (env := Demo.standard) Demo.hamlet
                            Demo.empty_world) in
  dict_get page "signed_seat_count" = Some (VStr "12:48650")
  /\ dict_get page "salt" = Some (VStr "c2FsdA")
  /\ unsign_seat_count (env := Demo.standard) "12:48650" "c2FsdA" = Ok 12
  /\ upgrade_body (env := Demo.standard)
       (check_upgrade_parameters (env := Demo.standard)) Demo.hamlet
       "charge_automatically" "monthly" (Some "automatic") None
       (Some "tok_visa") "12:48650" "c2FsdA" Demo.empty_world
     = Demo.record_upgrade Demo.hamlet (Some 12) 2 Demo.empty_world.
Proof.
  destruct (upgrade_accepts_issued_seat_count (env := Demo.standard)
              Demo.hamlet Demo.empty_world _ _ toy_urlsafe eq_refl)
    as (seat & signed & salt & Hseat & Hsigned & Hsalt & Hverify & Hpost).
  injection Hseat as <-. injection Hsigned as <-. injection Hsalt as <-.
  split; [reflexivity|]. split; [reflexivity|]. split; [exact Hverify|].
  exact (proj1 (Hpost Demo.hamlet None "tok_visa" Demo.empty_world)).
Defined.
